(** * ted: a modal terminal text editor

    A shallow embedding of the editor core of [ted.py] (the curses
    front-end) and of the rule selection of [ted-win.py], with the
    properties of the editing state machine, the command line and the
    file round trip.

    Conventions.
    - A Python [str] is a [list ascii]: a sequence of code units, each
      read as the code point of the same number (U+0000 to U+00FF).
    - A Python [int] is a [Z]; [len] is [Z.of_nat (length _)].
    - A Python statement that may raise is a function into [Res]. *)

From Stdlib Require Import ZArith Lia Ascii String DecimalString.
From stdpp Require Import base option list strings gmap.

Local Open Scope Z_scope.

(** A string literal stands for its list of code units. *)
Coercion list_ascii_of_string : string >-> list.

Abbreviation str := (list ascii).

(** ** Python primitives *)
Module Py.

Section Sequences.
Context {A : Type}.

Definition len (l : list A) : Z := Z.of_nat (length l).

(** Position of a subscript: a negative index counts from the end;
    [None] is Python's [IndexError]. *)
Definition norm_index (l : list A) (i : Z) : option nat :=
  if 0 <=? i then (if i <? len l then Some (Z.to_nat i) else None)
  else (if 0 <=? len l + i then Some (Z.to_nat (len l + i)) else None).

(** [l[i]] *)
Definition getitem (l : list A) (i : Z) : option A :=
  k ← norm_index l i; l !! k.

(** [l[i] = v] *)
Definition setitem (l : list A) (i : Z) (v : A) : option (list A) :=
  k ← norm_index l i; Some (<[k := v]> l).

(** [del l[i]] *)
Definition delitem (l : list A) (i : Z) : option (list A) :=
  k ← norm_index l i; Some (delete k l).

(** Position of a slice bound: negative bounds count from the end,
    and every bound is clamped into [0 .. len l]. *)
Definition slice_bound (l : list A) (i : Z) : nat :=
  if i <? 0 then Z.to_nat (Z.max 0 (len l + i))
  else Z.to_nat (Z.min i (len l)).

(** [l[:j]] *)
Definition slice_to (l : list A) (j : Z) : list A :=
  take (slice_bound l j) l.

(** [l[i:]] *)
Definition slice_from (l : list A) (i : Z) : list A :=
  drop (slice_bound l i) l.

(** [l.insert(i, v)]: never raises, the position is clamped like a
    slice bound. *)
Definition insert_at (l : list A) (i : Z) (v : A) : list A :=
  take (slice_bound l i) l ++ v :: drop (slice_bound l i) l.
End Sequences.

(** [ord(c)] and [chr(k)] on the code units of the model. *)
Definition ord (c : ascii) : Z := Z.of_N (N_of_ascii c).
Definition chr (k : Z) : ascii := ascii_of_N (Z.to_N k).

(** The characters [str.splitlines] breaks a line at (those below
    U+0100): LF, CR, VT, FF, FS, GS, RS and NEL. *)
Definition is_linebreak (c : ascii) : bool :=
  let k := ord c in
  (k =? 10) || (k =? 13) || (k =? 11) || (k =? 12)
  || (k =? 28) || (k =? 29) || (k =? 30) || (k =? 133).

(** [s.splitlines()]: [cur] is the line being read.  CR LF is one
    break; the text after the last break is a line only when it is not
    empty. *)
Fixpoint splitlines_from (cur : str) (s : str) : list str :=
  match s with
  | [] => match cur with [] => [] | _ => [cur] end
  | c :: s' =>
      if is_linebreak c then
        cur :: match s' with
               | d :: s'' =>
                   if (ord c =? 13) && (ord d =? 10)
                   then splitlines_from [] s''
                   else splitlines_from [] s'
               | [] => splitlines_from [] s'
               end
      else splitlines_from (cur ++ [c]) s'
  end.

Definition splitlines (s : str) : list str := splitlines_from [] s.

(** [sep.join(l)] *)
Fixpoint join (sep : str) (l : list str) : str :=
  match l with
  | [] => []
  | [x] => x
  | x :: l' => x ++ sep ++ join sep l'
  end.

(** [str.isspace] on one character (code points below U+0100). *)
Definition is_space (c : ascii) : bool :=
  let k := ord c in
  ((9 <=? k) && (k <=? 13)) || ((28 <=? k) && (k <=? 32))
  || (k =? 133) || (k =? 160).

Fixpoint lstrip (s : str) : str :=
  match s with
  | c :: s' => if is_space c then lstrip s' else s
  | [] => []
  end.

(** [s.strip()] *)
Definition strip (s : str) : str := rev (lstrip (rev (lstrip s))).

(** [s.startswith(p)] *)
Fixpoint startswith (s p : str) : bool :=
  match p, s with
  | [], _ => true
  | a :: p', b :: s' => bool_decide (a = b) && startswith s' p'
  | _ :: _, [] => false
  end.

(** [s.replace(old, new)] for a one-character [old]. *)
Fixpoint replace (old : ascii) (new : str) (s : str) : str :=
  match s with
  | [] => []
  | c :: s' =>
      (if bool_decide (c = old) then new else [c]) ++ replace old new s'
  end.

(** The string ["\n"]. *)
Definition LF : str := ["010"%char].

(** [str(n)] for a non-negative integer. *)
Definition str_of_nat (n : nat) : str :=
  list_ascii_of_string (NilZero.string_of_uint (Nat.to_uint n)).

End Py.

(** ** The curses key codes used by [ted.py] (values of ncurses) *)
Module Curses.
Definition KEY_DOWN : Z := 258.
Definition KEY_UP : Z := 259.
Definition KEY_LEFT : Z := 260.
Definition KEY_RIGHT : Z := 261.
Definition KEY_BACKSPACE : Z := 263.
Definition KEY_ENTER : Z := 343.
Definition KEY_RESIZE : Z := 410.
End Curses.

(** ** The file system, as far as the editor sees it

    Reading and writing a file are single external calls.  [files] maps
    a path to the text stored there; [unwritable] gives, for a path that
    cannot be opened for writing, the message of the error raised. *)
Record FileSystem := mkFS {
  files : gmap (list ascii) (list ascii);
  unwritable : gmap (list ascii) (list ascii)
}.

Module OS.

(** [os.path.exists(p)] *)
Definition exists_ (fs : FileSystem) (p : str) : bool :=
  bool_decide (is_Some (files fs !! p)).

(** Newline translation of a file opened for reading in text mode:
    CR LF and a lone CR are read as LF. *)
Fixpoint universal_newlines (s : str) : str :=
  match s with
  | [] => []
  | c :: s' =>
      if Py.ord c =? 13 then
        "010"%char :: match s' with
                      | d :: s'' =>
                          if Py.ord d =? 10 then universal_newlines s''
                          else universal_newlines s'
                      | [] => universal_newlines s'
                      end
      else c :: universal_newlines s'
  end.

(** [open(p, 'r').read()] for an existing path. *)
Definition read (fs : FileSystem) (p : str) : option str :=
  universal_newlines <$> files fs !! p.

(** [with open(p, 'w') as f: f.write(data)]: the new file system, or
    the message of the exception.  A path that is not a string
    ([None]) and the empty path cannot be opened. *)
Definition write (fs : FileSystem) (p : option str) (data : str)
  : str + FileSystem :=
  match p with
  | None => inl (list_ascii_of_string
              "expected str, bytes or os.PathLike object, not NoneType")
  | Some [] => inl (list_ascii_of_string
              "[Errno 2] No such file or directory: ''")
  | Some path =>
      match unwritable fs !! path with
      | Some msg => inl msg
      | None => inr (mkFS (<[path := data]> (files fs)) (unwritable fs))
      end
  end.

End OS.

(** ** The editor of [ted.py] *)
Module Ted.
Import Curses.

Inductive Mode := normal | insert.

(** The attributes of a [Ted] object that the editing core uses.
    [filename] is [None] or a string; [content] is the list of lines. *)
Record Ted := mkTed {
  filename : option (list ascii);
  content : list (list ascii);
  mode : Mode;
  cursor_y : Z;
  cursor_x : Z;
  message : list ascii;
  quit : bool;
  dirty : bool
}.

Definition with_filename (v : option str) (s : Ted) : Ted :=
  mkTed v (content s) (mode s) (cursor_y s) (cursor_x s)
        (message s) (quit s) (dirty s).
Definition with_content (v : list str) (s : Ted) : Ted :=
  mkTed (filename s) v (mode s) (cursor_y s) (cursor_x s)
        (message s) (quit s) (dirty s).
Definition with_mode (v : Mode) (s : Ted) : Ted :=
  mkTed (filename s) (content s) v (cursor_y s) (cursor_x s)
        (message s) (quit s) (dirty s).
Definition with_cursor_y (v : Z) (s : Ted) : Ted :=
  mkTed (filename s) (content s) (mode s) v (cursor_x s)
        (message s) (quit s) (dirty s).
Definition with_cursor_x (v : Z) (s : Ted) : Ted :=
  mkTed (filename s) (content s) (mode s) (cursor_y s) v
        (message s) (quit s) (dirty s).
Definition with_message (v : str) (s : Ted) : Ted :=
  mkTed (filename s) (content s) (mode s) (cursor_y s) (cursor_x s)
        v (quit s) (dirty s).
Definition with_quit (v : bool) (s : Ted) : Ted :=
  mkTed (filename s) (content s) (mode s) (cursor_y s) (cursor_x s)
        (message s) v (dirty s).
Definition with_dirty (v : bool) (s : Ted) : Ted :=
  mkTed (filename s) (content s) (mode s) (cursor_y s) (cursor_x s)
        (message s) (quit s) v.

(** What a run acts on: the editor object, the keys the terminal will
    deliver to [getch] (oldest first) and the file system. *)
Record World := mkWorld {
  ted : Ted;
  pending : list Z;
  fs : FileSystem
}.

Inductive Exn :=
| IndexError
| AttributeError (attr : string).

(** Result of a statement: normal completion, an exception, or a
    [getch] that waits for a key the terminal has not delivered. *)
Inductive Res (A : Type) :=
| Ret (a : A)
| Raise (e : Exn)
| Block.
Arguments Ret {A} a.
Arguments Raise {A} e.
Arguments Block {A}.

Definition M (A : Type) : Type := World -> Res A * World.

#[export] Instance M_ret : MRet M := fun A a w => (Ret a, w).
#[export] Instance M_bind : MBind M := fun A B k m w =>
  match m w with
  | (Ret a, w') => k a w'
  | (Raise e, w') => (Raise e, w')
  | (Block, w') => (Block, w')
  end.

Definition raise {A} (e : Exn) : M A := fun w => (Raise e, w).

(** Read an attribute of [self]; run an assignment to [self]. *)
Definition get {A} (f : Ted -> A) : M A := fun w => (Ret (f (ted w)), w).
Definition set (f : Ted -> Ted) : M unit :=
  fun w => (Ret tt, mkWorld (f (ted w)) (pending w) (fs w)).

(** A subscript that may raise [IndexError]. *)
Definition index {A} (o : option A) : M A :=
  match o with Some a => mret a | None => raise IndexError end.

(** [self.stdscr.getch()] *)
Definition getch : M Z := fun w =>
  match pending w with
  | k :: ks => (Ret k, mkWorld (ted w) ks (fs w))
  | [] => (Block, w)
  end.

(** Truth value of [self.filename]: [None] and [""] are false. *)
Definition truthy (f : option str) : bool :=
  match f with Some (_ :: _) => true | _ => false end.

(** [ensure_cursor_in_bounds] *)
Definition ensure_cursor_in_bounds : M unit :=
  y ← get cursor_y; c ← get content;
  set (with_cursor_y (Z.max 0 (Z.min y (Py.len c - 1))));;
  x ← get cursor_x; y ← get cursor_y; c ← get content;
  line ← index (Py.getitem c y);
  set (with_cursor_x (Z.max 0 (Z.min x (Py.len line)))).

(** [save_file] *)
Definition save_file : M unit := fun w =>
  let s := ted w in
  match OS.write (fs w) (filename s) (Py.join Py.LF (content s)) with
  | inr fs' =>
      let name := match filename s with Some n => n | None => "None" end in
      let msg := "'" ++ name ++ "' "
                 ++ Py.str_of_nat (length (content s)) ++ "L written" in
      (Ret tt, mkWorld (with_dirty false (with_message msg s)) (pending w) fs')
  | inl e =>
      (Ret tt, mkWorld (with_message ("Error writing file: " ++ e) s)
                       (pending w) (fs w))
  end.

(** [ted.py] calls [self.get_command_input()] and
    [self.get_filename_for_save()], and class [Ted] of [ted.py] defines
    neither: the attribute lookup raises [AttributeError]. *)
Definition get_command_input : M str :=
  raise (AttributeError "get_command_input").
Definition get_filename_for_save : M bool :=
  raise (AttributeError "get_filename_for_save").

(** [process_command] *)
Definition process_command (cmd : str) : M unit :=
  if bool_decide (cmd = "q") then
    get dirty ≫= λ d : bool,
    if d then
      set (with_message "No write since last change (add ! to override)")
    else set (with_quit true)
  else if bool_decide (cmd = "q!") then
    set (with_quit true)
  else if bool_decide (cmd = "w") then
    f ← get filename;
    if truthy f then save_file
    else
      set (with_message "Enter filename: ");;
      name ← get_command_input;
      if truthy (Some name) then
        set (with_filename (Some name));; save_file
      else mret tt
  else if bool_decide (cmd = "wq") then
    f ← get filename;
    (if truthy f then mret true else get_filename_for_save) ≫= λ ok : bool,
    if ok then save_file;; set (with_quit true)
    else mret tt
  else if Py.startswith cmd "w " then
    set (with_filename (Some (Py.strip (Py.slice_from cmd 2))));;
    save_file
  else
    set (with_message ("Not an editor command: " ++ cmd)).

(** [get_command]: the loop reads keys until Enter (run the command)
    or Escape (drop it).  Drawing the prompt is the terminal's. *)
Fixpoint get_command_loop (ks : list Z) (cmd : str) (w : World)
  : Res unit * World :=
  match ks with
  | [] => (Block, w)
  | key :: ks' =>
      let w' := mkWorld (ted w) ks' (fs w) in
      if (key =? KEY_ENTER) || (key =? 10) then process_command cmd w'
      else if (key =? KEY_BACKSPACE) || (key =? 127) then
        get_command_loop ks' (Py.slice_to cmd (-1)) w'
      else if key =? 27 then (Ret tt, w')
      else if (32 <=? key) && (key <=? 126) then
        get_command_loop ks' (cmd ++ [Py.chr key]) w'
      else get_command_loop ks' cmd w'
  end.

Definition get_command : M unit :=
  fun w => get_command_loop (pending w) [] w.

(** [self.content[self.cursor_y]] *)
Definition current_line : M str :=
  y ← get cursor_y; c ← get content; index (Py.getitem c y).

(** [self.content[self.cursor_y] = v] *)
Definition set_current_line (v : str) : M unit :=
  y ← get cursor_y; c ← get content;
  c' ← index (Py.setitem c y v);
  set (with_content c').

(** [self.cursor_x = min(self.cursor_x, len(self.content[self.cursor_y]))] *)
Definition snap_column : M unit :=
  x ← get cursor_x; line ← current_line;
  set (with_cursor_x (Z.min x (Py.len line))).

Definition key_of (c : ascii) : Z := Py.ord c.

(** [handle_normal_mode] *)
Definition handle_normal_mode (key : Z) : M unit :=
  ensure_cursor_in_bounds;;
  if key =? key_of "i" then
    set (with_mode insert)
  else if key =? key_of "a" then
    line ← current_line; x ← get cursor_x;
    set (with_cursor_x (Z.min (Py.len line) (x + 1)));;
    set (with_mode insert)
  else if (key =? key_of "h") || (key =? KEY_LEFT) then
    x ← get cursor_x; set (with_cursor_x (Z.max 0 (x - 1)))
  else if (key =? key_of "j") || (key =? KEY_DOWN) then
    c ← get content; y ← get cursor_y;
    set (with_cursor_y (Z.min (Py.len c - 1) (y + 1)));;
    snap_column
  else if (key =? key_of "k") || (key =? KEY_UP) then
    y ← get cursor_y;
    set (with_cursor_y (Z.max 0 (y - 1)));;
    snap_column
  else if (key =? key_of "l") || (key =? KEY_RIGHT) then
    line ← current_line; x ← get cursor_x;
    set (with_cursor_x (Z.min (Py.len line) (x + 1)))
  else if key =? key_of ":" then
    get_command
  else if key =? key_of "x" then
    x ← get cursor_x; l ← current_line;
    if x <? Py.len l then
      line ← current_line; x ← get cursor_x;
      set_current_line (Py.slice_to line x ++ Py.slice_from line (x + 1));;
      set (with_dirty true)
    else mret tt
  else if key =? key_of "o" then
    c ← get content; y ← get cursor_y;
    set (with_content (Py.insert_at c (y + 1) []));;
    y ← get cursor_y; set (with_cursor_y (y + 1));;
    set (with_cursor_x 0);;
    set (with_mode insert);;
    set (with_dirty true)
  else if key =? key_of "O" then
    c ← get content; y ← get cursor_y;
    set (with_content (Py.insert_at c y []));;
    set (with_cursor_x 0);;
    set (with_mode insert);;
    set (with_dirty true)
  else if key =? key_of "$" then
    line ← current_line; set (with_cursor_x (Py.len line))
  else if key =? key_of "0" then
    set (with_cursor_x 0)
  else if key =? key_of "G" then
    c ← get content;
    set (with_cursor_y (Py.len c - 1));;
    snap_column
  else if key =? key_of "g" then
    next_key ← getch;
    if next_key =? key_of "g" then
      set (with_cursor_y 0);;
      snap_column
    else mret tt
  else if key =? KEY_RESIZE then mret tt
  else if key =? 27 then mret tt
  else mret tt.

(** [handle_insert_mode] *)
Definition handle_insert_mode (key : Z) : M unit :=
  ensure_cursor_in_bounds;;
  if key =? 27 then
    set (with_mode normal)
  else if (key =? KEY_BACKSPACE) || (key =? 127) then
    x ← get cursor_x;
    if 0 <? x then
      line ← current_line; x ← get cursor_x;
      set_current_line (Py.slice_to line (x - 1) ++ Py.slice_from line x);;
      x ← get cursor_x; set (with_cursor_x (x - 1));;
      set (with_dirty true)
    else
      y ← get cursor_y;
      if 0 <? y then
        c ← get content; y ← get cursor_y;
        prev ← index (Py.getitem c (y - 1));
        set (with_cursor_x (Py.len prev));;
        c ← get content; y ← get cursor_y;
        a ← index (Py.getitem c (y - 1));
        b ← index (Py.getitem c y);
        c' ← index (Py.setitem c (y - 1) (a ++ b));
        set (with_content c');;
        c ← get content; y ← get cursor_y;
        c' ← index (Py.delitem c y);
        set (with_content c');;
        y ← get cursor_y; set (with_cursor_y (y - 1));;
        set (with_dirty true)
      else mret tt
  else if (key =? KEY_ENTER) || (key =? 10) then
    line ← current_line;
    c ← get content; y ← get cursor_y; x ← get cursor_x;
    set (with_content (Py.insert_at c (y + 1) (Py.slice_from line x)));;
    x ← get cursor_x;
    set_current_line (Py.slice_to line x);;
    y ← get cursor_y; set (with_cursor_y (y + 1));;
    set (with_cursor_x 0);;
    set (with_dirty true)
  else if key =? KEY_LEFT then
    x ← get cursor_x; set (with_cursor_x (Z.max 0 (x - 1)))
  else if key =? KEY_RIGHT then
    line ← current_line; x ← get cursor_x;
    set (with_cursor_x (Z.min (Py.len line) (x + 1)))
  else if key =? KEY_UP then
    y ← get cursor_y;
    set (with_cursor_y (Z.max 0 (y - 1)));;
    snap_column
  else if key =? KEY_DOWN then
    c ← get content; y ← get cursor_y;
    set (with_cursor_y (Z.min (Py.len c - 1) (y + 1)));;
    snap_column
  else if (32 <=? key) && (key <=? 126) then
    line ← current_line; x ← get cursor_x;
    set_current_line
      (Py.slice_to line x ++ [Py.chr key] ++ Py.slice_from line x);;
    x ← get cursor_x; set (with_cursor_x (x + 1));;
    set (with_dirty true)
  else mret tt.

(** [handle_input] *)
Definition handle_input : M unit :=
  key ← getch;
  get mode ≫= λ m : Mode,
  match m with
  | normal => handle_normal_mode key
  | insert => handle_insert_mode key
  end.

(** [display], as far as the editor object goes: the message is shown
    once and cleared.  Drawing is the terminal's. *)
Definition display : M unit := set (with_message []).

(** [run]: the first [n] rounds of [while not self.quit]. *)
Fixpoint run (n : nat) : M unit :=
  match n with
  | O => mret tt
  | S n' =>
      get quit ≫= λ q : bool,
      if q then mret tt
      else display;; handle_input;; run n'
  end.

(** The buffer built by [__init__] (lines 101 to 105): the lines of
    the file when a file of that name exists, one empty line
    otherwise. *)
Definition load (fs : FileSystem) (name : option str) : list str :=
  match name with
  | Some p =>
      if truthy name && OS.exists_ fs p then
        match OS.read fs p with
        | Some text =>
            match Py.splitlines text with
            | [] => [ [] ]
            | c => c
            end
        | None => [ [] ]
        end
      else [ [] ]
  | None => [ [] ]
  end.

(** The attributes [__init__] assigns.  (The rule list it asks
    [TedConfig] for plays no part in the buffer; [get_rules_for_file]
    is modelled from [ted-win.py], where it is defined.) *)
Definition init (fs : FileSystem) (name : option str) : Ted :=
  mkTed name (load fs name) normal 0 0 [] false false.

(** The line under the cursor. *)
Definition line_at (s : Ted) : str :=
  content s !!! Z.to_nat (cursor_y s).

(** The invariant of the buffer: at least one line, the cursor row on
    a line, the cursor column on the line or just after its end. *)
Definition inv (s : Ted) : Prop :=
  1 <= Py.len (content s)
  /\ 0 <= cursor_y s < Py.len (content s)
  /\ 0 <= cursor_x s <= Py.len (line_at s).

(** The cursor as [ensure_cursor_in_bounds] leaves it. *)
Definition clamp (s : Ted) : Ted :=
  let y := Z.max 0 (Z.min (cursor_y s) (Py.len (content s) - 1)) in
  let line := content s !!! Z.to_nat y in
  with_cursor_x (Z.max 0 (Z.min (cursor_x s) (Py.len line)))
                (with_cursor_y y s).

(** Two states with the same buffer: lines and cursor. *)
Definition same_buffer (s s' : Ted) : Prop :=
  content s' = content s
  /\ cursor_y s' = cursor_y s /\ cursor_x s' = cursor_x s.

#[export] Instance inv_dec s : Decision (inv s).
Proof. unfold inv. apply _. Defined.

End Ted.

(** ** A fragment of Python's [re]

    The patterns [get_rules_for_file] builds are read by [re.fullmatch].
    The fragment covers ordinary characters, [.], a backslash before a
    character that is no ASCII letter or digit, and one of the
    quantifiers [*], [+], [?] after such an atom.  A pattern outside the
    fragment (a class, a group, an alternative, an anchor, a counted or
    doubled quantifier, an invalid pattern) is not given a meaning:
    [parse] returns [None]. *)
Module Re.

Inductive atom := Lit (c : ascii) | Any.
Inductive quant := One | Star | Plus | Opt.
Inductive token := TAtom (a : atom) | TQuant (q : quant).

Definition is_ascii_alnum (c : ascii) : bool :=
  let k := Py.ord c in
  ((48 <=? k) && (k <=? 57)) || ((65 <=? k) && (k <=? 90))
  || ((97 <=? k) && (k <=? 122)).

(** The special characters of [re] that the fragment leaves out. *)
Definition is_unsupported (c : ascii) : bool :=
  bool_decide (c ∈ list_ascii_of_string "^${}[]|()").

Fixpoint tokens (r : str) : option (list token) :=
  match r with
  | [] => Some []
  | c :: r' =>
      if bool_decide (c = "\"%char) then
        match r' with
        | d :: r'' =>
            if is_ascii_alnum d then None
            else (TAtom (Lit d) ::.) <$> tokens r''
        | [] => None
        end
      else if bool_decide (c = "."%char) then (TAtom Any ::.) <$> tokens r'
      else if bool_decide (c = "*"%char) then (TQuant Star ::.) <$> tokens r'
      else if bool_decide (c = "+"%char) then (TQuant Plus ::.) <$> tokens r'
      else if bool_decide (c = "?"%char) then (TQuant Opt ::.) <$> tokens r'
      else if is_unsupported c then None
      else (TAtom (Lit c) ::.) <$> tokens r'
  end.

(** An atom with the quantifier that follows it, if any.  A quantifier
    with no atom before it is not in the fragment. *)
Fixpoint items (ts : list token) : option (list (atom * quant)) :=
  match ts with
  | [] => Some []
  | TAtom a :: TQuant q :: ts' => ((a, q) ::.) <$> items ts'
  | TAtom a :: ts' => ((a, One) ::.) <$> items ts'
  | TQuant _ :: _ => None
  end.

Definition parse (r : str) : option (list (atom * quant)) :=
  tokens r ≫= items.

(** [.] matches any character but a newline (no flag is given). *)
Definition atom_matches (a : atom) (c : ascii) : bool :=
  match a with
  | Lit d => bool_decide (c = d)
  | Any => negb (Py.ord c =? 10)
  end.

(** Does the whole of [s] match the sequence of items? *)
Fixpoint matches (p : list (atom * quant)) (s : str) {struct p} : bool :=
  match p with
  | [] => match s with [] => true | _ => false end
  | (a, q) :: p' =>
      let fix star (s : str) : bool :=
        matches p' s
        || match s with
           | c :: s' => atom_matches a c && star s'
           | [] => false
           end in
      match q with
      | One => match s with
               | c :: s' => atom_matches a c && matches p' s'
               | [] => false
               end
      | Star => star s
      | Plus => match s with
                | c :: s' => atom_matches a c && star s'
                | [] => false
                end
      | Opt => matches p' s
               || match s with
                  | c :: s' => atom_matches a c && matches p' s'
                  | [] => false
                  end
      end
  end.

(** [re.fullmatch(r, s)] as a truth value; [None] outside the
    fragment. *)
Definition fullmatch (r : str) (s : str) : option bool :=
  p ← parse r; Some (matches p s).

End Re.

(** ** Rule selection of [ted-win.py] *)
Module TedConfig.

Section Rules.
(** A compiled rule, a pair of a pattern object and a colour. *)
Context {Rule : Type}.
(** [os.path.basename] *)
Variable basename : list ascii -> list ascii.

(** [pattern.replace('.', '\.').replace('*', '.*').replace('?', '.')] *)
Definition to_regex (pattern : str) : str :=
  Py.replace "?" "." (Py.replace "*" ".*" (Py.replace "." "\." pattern)).

(** The [for] loop over [self.syntax_rules.items()]: a dictionary in
    insertion order, as a list of its items. *)
Fixpoint first_match (entries : list (list ascii * list Rule))
         (filename : str) : option (list Rule) :=
  match entries with
  | [] => Some []
  | (pattern, rules) :: rest =>
      match Re.fullmatch (to_regex pattern) (basename filename) with
      | Some true => Some rules
      | Some false => first_match rest filename
      | None => None
      end
  end.

(** [get_rules_for_file]; [None] when a pattern of the configuration
    leaves the fragment of [Re] before a match is found. *)
Definition get_rules_for_file
           (syntax_rules : list (list ascii * list Rule))
           (filename : option str) : option (list Rule) :=
  match filename with
  | Some (c :: n) => first_match syntax_rules (c :: n)
  | _ => Some []
  end.
End Rules.

(** The last component of a path: the text after the last [/] or
    [\].  On a path with no drive or share prefix this is
    [os.path.basename]. *)
Definition tail (p : str) : str :=
  fold_left (fun acc c =>
               if bool_decide (c = "/"%char) || bool_decide (c = "\"%char)
               then [] else acc ++ [c]) p [].

End TedConfig.

(** ** Matching by wildcard, in the words of the specification

    [*] matches any run of characters, [?] matches one character, every
    other character matches itself; the pattern covers the whole name. *)
Fixpoint wildcard_match (p : str) (s : str) {struct p} : bool :=
  match p with
  | [] => match s with [] => true | _ => false end
  | c :: p' =>
      if bool_decide (c = "*"%char) then
        (fix run (s : str) : bool :=
           wildcard_match p' s
           || match s with _ :: s' => run s' | [] => false end) s
      else
        match s with
        | d :: s' =>
            (bool_decide (c = "?"%char) || bool_decide (c = d))
            && wildcard_match p' s'
        | [] => false
        end
  end.

(** ** Wildcard patterns that [to_regex] translates as intended *)
Module Wild.

(** A character of a pattern that [re] reads as itself, or one of the
    three that [to_regex] rewrites ([.], [*] and [?]). *)
Definition plain (c : ascii) : bool :=
  negb (bool_decide (c ∈ list_ascii_of_string "\+^${}[]|()")).

(** The items of the regular expression a plain pattern turns into. *)
Definition item_of (c : ascii) : Re.atom * Re.quant :=
  if bool_decide (c = "*"%char) then (Re.Any, Re.Star)
  else if bool_decide (c = "?"%char) then (Re.Any, Re.One)
  else (Re.Lit c, Re.One).

Definition tokens_of (c : ascii) : list Re.token :=
  match item_of c with
  | (a, Re.One) => [Re.TAtom a]
  | (a, q) => [Re.TAtom a; Re.TQuant q]
  end.

(** The entry a selection by wildcard picks: the rules of the first
    entry whose pattern matches the name, no rule if there is none. *)
Definition select {Rule : Type}
           (entries : list (list ascii * list Rule)) (name : str)
  : list Rule :=
  match List.find (fun e => wildcard_match e.1 name) entries with
  | Some e => e.2
  | None => []
  end.

(** A configuration and a rule, to run the selection on. *)
Definition rules_py : list (nat * string) :=
  [(1%nat, "yellow"%string); (2%nat, "green"%string)].
Definition rules_txt : list (nat * string) := [(3%nat, "cyan"%string)].
Definition config : list (list ascii * list (nat * string)) :=
  [(list_ascii_of_string "*.py", rules_py);
   (list_ascii_of_string "a+.txt", rules_txt)].
End Wild.

(** ** Normalisation of trailing newlines, in the words of the specification

    Two line sequences are the same up to trailing newlines when they
    differ only in empty lines at the end; [normalize] drops those, and
    leaves one empty line where nothing else is left. *)
Fixpoint strip_trailing_empty (l : list str) : list str :=
  match l with
  | [] => []
  | x :: l' =>
      match strip_trailing_empty l' with
      | [] => match x with [] => [] | _ => [x] end
      | r => x :: r
      end
  end.

Definition normalize (l : list str) : list str :=
  match strip_trailing_empty l with
  | [] => [ [] ]
  | r => r
  end.

(** The lines without one empty line at the end, if there is one. *)
Fixpoint drop_last_empty (l : list str) : list str :=
  match l with
  | [] => []
  | [x] => match x with [] => [] | _ => [x] end
  | x :: l' => x :: drop_last_empty l'
  end.

(** No character of the text breaks a line. *)
Definition no_linebreak (s : str) : Prop :=
  Forall (fun c => Py.is_linebreak c = false) s.

(** ** Sample worlds, used to run the definitions on concrete inputs *)
Module Sample.
Import Ted.

(** A file system where the directory of [/ro/notes.txt] is read-only. *)
Definition fs_ro : FileSystem :=
  mkFS ∅ {[ list_ascii_of_string "/ro/notes.txt" :=
            list_ascii_of_string
              "[Errno 13] Permission denied: '/ro/notes.txt'" ]}.

(** An empty file system where every path but the empty one can be
    written. *)
Definition fs_empty : FileSystem := mkFS ∅ ∅.

(** An edited buffer whose file cannot be written. *)
Definition unsaved : Ted :=
  mkTed (Some (list_ascii_of_string "/ro/notes.txt"))
        [list_ascii_of_string "hello"; list_ascii_of_string "world"]
        normal 1 2 [] false true.

(** An edited buffer with no file name. *)
Definition unnamed : Ted :=
  mkTed None [list_ascii_of_string "abc"] normal 0 0 [] false true.

(** A buffer ready to be saved as [/tmp/a.txt]. *)
Definition named : Ted :=
  mkTed (Some (list_ascii_of_string "/tmp/a.txt"))
        [list_ascii_of_string "one"; list_ascii_of_string "two"; []]
        normal 0 0 [] false true.
End Sample.

(** ** More sample states *)
Module Sample2.
Import Ted.

(** A state whose cursor is far outside the buffer. *)
Definition stray : Ted :=
  mkTed None [list_ascii_of_string "ab"; list_ascii_of_string "c"]
        normal 7 (-3) [] false false.

(** A clean buffer with a file name, cursor inside the first line. *)
Definition draft : Ted :=
  mkTed (Some (list_ascii_of_string "/tmp/b.txt"))
        [list_ascii_of_string "abc"; list_ascii_of_string "de"]
        normal 0 1 [] false false.
End Sample2.

(** ** Typing on the command line *)
Module Keys.
Import Ted.

(** The keys that type a text: the codes of its characters. *)
Definition keys_of (text : str) : list Z := Py.ord <$> text.

(** A text made of printable characters (codes 32 to 126), the ones the
    command line and insert mode accept. *)
Definition printable (text : str) : Prop :=
  Forall (fun c => 32 <= Py.ord c <= 126) text.

(** What a command can change of the state is not the buffer, the
    cursor or the mode. *)
Definition same_view (s s' : Ted) : Prop :=
  content s' = content s /\ cursor_y s' = cursor_y s
  /\ cursor_x s' = cursor_x s /\ mode s' = mode s.
End Keys.

(** ** The command line of [ted-win.py]

    In the Windows front end a command is a line read with [input()],
    and so are the answers to the prompts for a file name.  [__init__],
    [save_file] and the tests of [process_command] are the same text as
    in [ted.py]; the editor object is the same record. *)
Module TedWin.
Import Ted.

(** The editor object, the lines [input()] will return (oldest first)
    and the file system. *)
Record World := mkWorld {
  ted : Ted;
  stdin : list (list ascii);
  fs : FileSystem
}.

(** [input()] at the end of the input raises [EOFError]. *)
Inductive Exn := EOFError.

Inductive Res (A : Type) :=
| Ret (a : A)
| Raise (e : Exn).
Arguments Ret {A} a.
Arguments Raise {A} e.

Definition M (A : Type) : Type := World -> Res A * World.

#[export] Instance M_ret : MRet M := fun A a w => (Ret a, w).
#[export] Instance M_bind : MBind M := fun A B k m w =>
  match m w with
  | (Ret a, w') => k a w'
  | (Raise e, w') => (Raise e, w')
  end.

Definition get {A} (f : Ted -> A) : M A := fun w => (Ret (f (ted w)), w).
Definition set (f : Ted -> Ted) : M unit :=
  fun w => (Ret tt, mkWorld (f (ted w)) (stdin w) (fs w)).

(** [input(prompt)] *)
Definition input : M str := fun w =>
  match stdin w with
  | l :: ls => (Ret l, mkWorld (ted w) ls (fs w))
  | [] => (Raise EOFError, w)
  end.

(** [save_file] *)
Definition save_file : M unit := fun w =>
  let s := ted w in
  match OS.write (fs w) (filename s) (Py.join Py.LF (content s)) with
  | inr fs' =>
      let name := match filename s with Some n => n | None => "None" end in
      let msg := "'" ++ name ++ "' "
                 ++ Py.str_of_nat (length (content s)) ++ "L written" in
      (Ret tt, mkWorld (with_dirty false (with_message msg s)) (stdin w) fs')
  | inl e =>
      (Ret tt, mkWorld (with_message ("Error writing file: " ++ e) s)
                       (stdin w) (fs w))
  end.

(** [get_filename_for_save] *)
Definition get_filename_for_save : M bool :=
  set (with_message "Enter filename: ");;
  name ← input;
  if truthy (Some name) then
    set (with_filename (Some name));; mret true
  else mret false.

(** [process_command] *)
Definition process_command (cmd : str) : M unit :=
  if bool_decide (cmd = "q") then
    get dirty ≫= λ d : bool,
    if d then
      set (with_message "No write since last change (add ! to override)")
    else set (with_quit true)
  else if bool_decide (cmd = "q!") then
    set (with_quit true)
  else if bool_decide (cmd = "w") then
    f ← get filename;
    if truthy f then save_file
    else
      set (with_message "Enter filename: ");;
      name ← input;
      if truthy (Some name) then
        set (with_filename (Some name));; save_file
      else mret tt
  else if bool_decide (cmd = "wq") then
    f ← get filename;
    (if truthy f then mret true else get_filename_for_save) ≫= λ ok : bool,
    if ok then save_file;; set (with_quit true)
    else mret tt
  else if Py.startswith cmd "w " then
    set (with_filename (Some (Py.strip (Py.slice_from cmd 2))));;
    save_file
  else
    set (with_message ("Not an editor command: " ++ cmd)).

(** [get_command] *)
Definition get_command : M unit :=
  cmd ← input; process_command cmd.

(** The rows [display] prints, after it has repaired the cursor: from
    [start_line] (included) to [end_line] (excluded). *)
Definition start_line (s : Ted) : Z := Z.max 0 (cursor_y s - 10).
Definition end_line (s : Ted) : Z :=
  Z.min (Py.len (content s)) (cursor_y s + 10).

(** The two front ends side by side: a world of [ted.py] and a world of
    [ted-win.py] with the same editor and the same files. *)
Definition of_posix (w : Ted.World) (lines : list str) : World :=
  mkWorld (Ted.ted w) lines (Ted.fs w).
End TedWin.

(** ** The screen of [ted.py]

    [display] draws the buffer rows from [start_line] on, each with
    [display_line(y, ...)], which writes at screen row [y], and then
    moves the terminal cursor. *)
Module Screen.
Import Ted.

(** [max(0, self.cursor_y - height // 2)] *)
Definition start_line (height : Z) (s : Ted) : Z :=
  Z.max 0 (cursor_y s - height / 2).

(** The bound of [range(start_line, min(len(self.content),
    start_line + height - 2))]. *)
Definition stop_line (height : Z) (s : Ted) : Z :=
  Z.min (Py.len (content s)) (start_line height s + height - 2).

(** The screen row [display_line] writes buffer row [y] at:
    [self.stdscr.addstr(y, ...)]. *)
Definition row_of_line (y : Z) : Z := y.

(** The screen row the cursor is moved to:
    [min(self.cursor_y - start_line, height-3)]. *)
Definition cursor_row (height : Z) (s : Ted) : Z :=
  Z.min (cursor_y s - start_line height s) (height - 3).
End Screen.

(** * Facts about the Python primitives *)
Section PyFacts.
Context {A : Type} `{Inhabited A}.
Implicit Types l : list A.

Lemma getitem_total l i :
  0 <= i < Py.len l -> Py.getitem l i = Some (l !!! Z.to_nat i).
Proof.
  unfold Py.getitem, Py.norm_index, Py.len. intros Hi.
  destruct (Z.leb_spec 0 i); [|lia].
  destruct (Z.ltb_spec i (Z.of_nat (length l))); [|lia].
  cbn. apply list_lookup_lookup_total_lt. lia.
Qed.

Lemma setitem_total l i v :
  0 <= i < Py.len l -> Py.setitem l i v = Some (<[Z.to_nat i := v]> l).
Proof.
  unfold Py.setitem, Py.norm_index, Py.len. intros Hi.
  destruct (Z.leb_spec 0 i); [|lia].
  destruct (Z.ltb_spec i (Z.of_nat (length l))); [|lia].
  reflexivity.
Qed.

Lemma delitem_total l i :
  0 <= i < Py.len l -> Py.delitem l i = Some (delete (Z.to_nat i) l).
Proof.
  unfold Py.delitem, Py.norm_index, Py.len. intros Hi.
  destruct (Z.leb_spec 0 i); [|lia].
  destruct (Z.ltb_spec i (Z.of_nat (length l))); [|lia].
  reflexivity.
Qed.

Lemma slice_bound_in l i :
  0 <= i <= Py.len l -> Py.slice_bound l i = Z.to_nat i.
Proof.
  unfold Py.slice_bound, Py.len. intros Hi.
  destruct (Z.ltb_spec i 0); [lia|]. f_equal. lia.
Qed.

Lemma slice_to_in l i :
  0 <= i <= Py.len l -> Py.slice_to l i = take (Z.to_nat i) l.
Proof. intros. unfold Py.slice_to. by rewrite slice_bound_in. Qed.

Lemma slice_from_in l i :
  0 <= i <= Py.len l -> Py.slice_from l i = drop (Z.to_nat i) l.
Proof. intros. unfold Py.slice_from. by rewrite slice_bound_in. Qed.

Lemma insert_at_in l i v :
  0 <= i <= Py.len l ->
  Py.insert_at l i v = take (Z.to_nat i) l ++ v :: drop (Z.to_nat i) l.
Proof. intros. unfold Py.insert_at. by rewrite slice_bound_in. Qed.

Lemma len_insert_at l i v : Py.len (Py.insert_at l i v) = Py.len l + 1.
Proof.
  unfold Py.insert_at, Py.len.
  rewrite length_app, length_take. cbn. rewrite length_drop. lia.
Qed.

Lemma len_app l1 l2 : Py.len (l1 ++ l2) = Py.len l1 + Py.len l2.
Proof. unfold Py.len. rewrite length_app. lia. Qed.

Lemma len_nonneg l : 0 <= Py.len l.
Proof. unfold Py.len. lia. Qed.

Lemma len_slice_to l i :
  0 <= i <= Py.len l -> Py.len (Py.slice_to l i) = i.
Proof.
  intros Hi. rewrite slice_to_in by done. unfold Py.len in *.
  rewrite length_take. lia.
Qed.

Lemma len_slice_from l i :
  0 <= i <= Py.len l -> Py.len (Py.slice_from l i) = Py.len l - i.
Proof.
  intros Hi. rewrite slice_from_in by done. unfold Py.len in *.
  rewrite length_drop. lia.
Qed.

Lemma slice_delete l i :
  0 < i <= Py.len l ->
  Py.slice_to l (i - 1) ++ Py.slice_from l i = delete (Z.to_nat i - 1)%nat l.
Proof.
  intros Hi. rewrite slice_to_in, slice_from_in by lia.
  rewrite delete_take_drop. repeat f_equal; lia.
Qed.

Lemma slice_to_from l i : Py.slice_to l i ++ Py.slice_from l i = l.
Proof. unfold Py.slice_to, Py.slice_from. apply take_drop. Qed.
End PyFacts.


Section PyLenFacts.
Context {A : Type}.
Implicit Types l : list A.

Lemma len_list_insert l k v : Py.len (<[k := v]> l) = Py.len l.
Proof. unfold Py.len. by rewrite length_insert. Qed.

Lemma len_delete l k :
  (k < length l)%nat -> Py.len (delete k l) = Py.len l - 1.
Proof.
  intros Hk. unfold Py.len. rewrite length_delete.
  - lia.
  - by apply lookup_lt_is_Some_2.
Qed.

Lemma len_cons a l : Py.len (a :: l) = 1 + Py.len l.
Proof. unfold Py.len. cbn [length]. lia. Qed.
End PyLenFacts.

(** * The editor: execution lemmas and the buffer invariant *)
Module TedFacts.
Import Ted Curses.

#[local] Arguments Py.getitem : simpl never.
#[local] Arguments Py.setitem : simpl never.
#[local] Arguments Py.delitem : simpl never.
#[local] Arguments Py.slice_to : simpl never.
#[local] Arguments Py.slice_from : simpl never.
#[local] Arguments Py.insert_at : simpl never.
#[local] Arguments Py.len : simpl never.
#[local] Arguments Py.strip : simpl never.
#[local] Arguments Py.join : simpl never.
#[local] Arguments Z.min : simpl never.
#[local] Arguments Z.max : simpl never.

(** Unfold the monad and the attribute updates, then compute. *)
Ltac munfold :=
  unfold ensure_cursor_in_bounds, current_line, set_current_line,
    snap_column, display;
  unfold mbind, M_bind, mret, M_ret, get, set, raise, getch;
  unfold with_filename, with_content, with_mode, with_cursor_y,
    with_cursor_x, with_message, with_quit, with_dirty;
  cbn.

Ltac in_range :=
  repeat first [rewrite len_list_insert | rewrite len_insert_at]; lia.

(** One step of symbolic execution: a subscript that is in range. *)
Ltac mstep :=
  first
    [ rewrite getitem_total by in_range
    | rewrite setitem_total by in_range
    | rewrite delitem_total by in_range ];
  cbn.

(** Case analysis on the condition of the next [if], or on the next
    key where [getch] looks at the pending keys. *)
Ltac branch :=
  match goal with
  | |- context [if (?a <? ?b) then _ else _] =>
      let H := fresh "Hlt" in
      destruct (Z.ltb_spec a b) as [H|H]; cbn in H
  | |- context [if ?b then _ else _] => destruct b eqn:?
  | |- context [match ?ks with [] => _ | _ :: _ => _ end] =>
      is_var ks; destruct ks
  end.

Ltac exec := repeat first [ mstep | branch | progress munfold ].

Lemma ensure_ok w :
  1 <= Py.len (content (ted w)) ->
  ensure_cursor_in_bounds w
  = (Ret tt, mkWorld (clamp (ted w)) (pending w) (fs w)).
Proof.
  destruct w as [[fn c md y x msg q d] ks f]; cbn. intros Hc.
  munfold. mstep. reflexivity.
Qed.

Lemma clamp_inv s : 1 <= Py.len (content s) -> inv (clamp s).
Proof.
  destruct s as [fn c md y x msg q d]; cbn. intros Hc.
  unfold inv, clamp, line_at, with_cursor_x, with_cursor_y; cbn.
  pose proof (len_nonneg (c !!! Z.to_nat (0 `max` (y `min` (Py.len c - 1))))).
  lia.
Qed.

Lemma clamp_id s : inv s -> clamp s = s.
Proof.
  destruct s as [fn c md y x msg q d].
  unfold inv, clamp, line_at, with_cursor_x, with_cursor_y; cbn.
  intros (H1 & H2 & H3).
  replace (0 `max` (y `min` (Py.len c - 1))) with y by lia.
  f_equal. lia.
Qed.

Lemma clamp_content s : content (clamp s) = content s.
Proof. reflexivity. Qed.

Lemma inv_same_buffer s s' : same_buffer s s' -> inv s -> inv s'.
Proof.
  unfold same_buffer, inv, line_at. intros (-> & -> & ->). done.
Qed.

Lemma same_buffer_refl s : same_buffer s s.
Proof. by unfold same_buffer. Qed.

Lemma same_buffer_trans s1 s2 s3 :
  same_buffer s1 s2 -> same_buffer s2 s3 -> same_buffer s1 s3.
Proof. unfold same_buffer. intros (-> & -> & ->) (-> & -> & ->). done. Qed.

(** A handler first repairs the cursor. *)
Lemma after_ensure (k : M unit) w :
  1 <= Py.len (content (ted w)) ->
  (ensure_cursor_in_bounds ;; k) w
  = k (mkWorld (clamp (ted w)) (pending w) (fs w)).
Proof.
  intros Hc. unfold mbind at 1, M_bind at 1. by rewrite ensure_ok.
Qed.

(** *** The command line leaves the buffer alone *)

Lemma save_file_same_buffer w :
  same_buffer (ted w) (ted (save_file w).2).
Proof.
  unfold save_file. destruct (OS.write _ _ _); by unfold same_buffer.
Qed.

Lemma process_command_same_buffer cmd w :
  same_buffer (ted w) (ted (process_command cmd w).2).
Proof.
  destruct w as [[fn c md y x msg q d] ks f].
  unfold process_command, get_command_input, get_filename_for_save.
  repeat first [ branch | progress munfold ];
    try (by unfold same_buffer);
    match goal with
    | |- same_buffer ?s (ted (save_file ?w).2) =>
        apply (same_buffer_trans s (ted w));
        [by unfold same_buffer | apply save_file_same_buffer]
    | |- _ => idtac
    end.
  all: destruct (save_file _) as [[] ?] eqn:E;
    match type of E with
    | save_file ?w = _ =>
        pose proof (save_file_same_buffer w) as Hs; rewrite E in Hs
    end; cbn in *; try exact Hs;
    destruct Hs as (? & ? & ?); by unfold same_buffer.
Qed.

Lemma get_command_loop_same_buffer ks cmd w :
  same_buffer (ted w) (ted (get_command_loop ks cmd w).2).
Proof.
  revert cmd w. induction ks as [|key ks IH]; intros cmd w; cbn.
  - apply same_buffer_refl.
  - repeat branch; cbn.
    + apply (process_command_same_buffer cmd (mkWorld (ted w) ks (fs w))).
    + apply (IH _ (mkWorld (ted w) ks (fs w))).
    + apply same_buffer_refl.
    + apply (IH _ (mkWorld (ted w) ks (fs w))).
    + apply (IH _ (mkWorld (ted w) ks (fs w))).
Qed.

Lemma get_command_same_buffer w :
  same_buffer (ted w) (ted (get_command w).2).
Proof. apply get_command_loop_same_buffer. Qed.

(** *** Every key keeps the invariant *)

Ltac start_handler Hc :=
  rewrite after_ensure by exact Hc;
  match goal with
  | |- context [clamp ?s] =>
      let Hi := fresh "Hi" in
      pose proof (clamp_inv s Hc) as Hi;
      destruct (clamp s) as [fn c md y x msg q d];
      destruct Hi as (H1 & H2 & H3); unfold line_at in H3; cbn in H1, H2, H3
  end.

Ltac finish :=
  unfold inv, line_at; cbn;
  rewrite ?len_list_insert, ?len_insert_at;
  repeat match goal with
         | |- context [Py.len (?l !!! ?k)] =>
             lazymatch goal with
             | _ : 0 <= Py.len (l !!! k) |- _ => fail
             | _ => pose proof (len_nonneg (l !!! k))
             end
         end;
  try lia.

Lemma handle_insert_mode_inv key w :
  1 <= Py.len (content (ted w)) ->
  inv (ted (handle_insert_mode key w).2).
Proof.
  intros Hc. unfold handle_insert_mode. start_handler Hc.
  destruct w as [s0 ks f]; cbn.
  exec; finish.
  - rewrite list_lookup_total_insert_eq by (unfold Py.len in *; lia).
    rewrite len_app, len_slice_to, len_slice_from by lia. lia.
  - rewrite len_delete, len_list_insert
      by (rewrite length_insert; unfold Py.len in *; lia).
    rewrite list_lookup_total_delete_lt by lia.
    replace (Z.to_nat y) with (S (Z.to_nat (y - 1))) in * by lia.
    rewrite list_lookup_total_insert_eq by (unfold Py.len in *; lia).
    rewrite len_app.
    pose proof (len_nonneg (c !!! S (Z.to_nat (y - 1)))). lia.
  - rewrite list_lookup_total_insert_eq by (unfold Py.len in *; lia).
    rewrite len_app, len_cons, len_slice_to, len_slice_from by lia. lia.
Qed.

Lemma handle_normal_mode_inv key w :
  1 <= Py.len (content (ted w)) ->
  inv (ted (handle_normal_mode key w).2).
Proof.
  intros Hc. unfold handle_normal_mode. start_handler Hc.
  destruct w as [s0 ks f]; cbn.
  exec;
    try (eapply inv_same_buffer;
         [apply (get_command_loop_same_buffer _ _ _)|]);
    finish.
  rewrite list_lookup_total_insert_eq by (unfold Py.len in *; lia).
  rewrite len_app, len_slice_to, len_slice_from by lia. lia.
Qed.

Lemma handle_input_inv w :
  inv (ted w) -> inv (ted (handle_input w).2).
Proof.
  intros Hi. unfold handle_input.
  unfold mbind at 1, M_bind at 1, getch.
  destruct w as [s ks f]; cbn in *.
  destruct ks as [|key ks]; cbn; [done|].
  unfold mbind, M_bind, get; cbn.
  destruct (mode s).
  - apply handle_normal_mode_inv; cbn. apply Hi.
  - apply handle_insert_mode_inv; cbn. apply Hi.
Qed.

Lemma run_inv n w : inv (ted w) -> inv (ted (run n w).2).
Proof.
  revert w. induction n as [|n IH]; intros w Hi; cbn; [done|].
  unfold mbind at 1, M_bind at 1, get; cbn.
  destruct (quit (ted w)); [done|].
  unfold mbind at 1, M_bind at 1, display, set; cbn.
  unfold mbind at 1, M_bind at 1.
  match goal with |- context [handle_input ?w0] =>
    pose proof (handle_input_inv w0) as Hh;
    destruct (handle_input w0) as [[[]| |] w1]
  end; cbn in *; try apply IH; apply Hh;
    (eapply inv_same_buffer; [|exact Hi]); by unfold same_buffer.
Qed.

Lemma load_nonempty f name : 1 <= Py.len (load f name).
Proof.
  unfold load. destruct name as [p|]; [|by cbn].
  destruct (truthy _ && _); [|by cbn].
  destruct (OS.read f p) as [text|]; [|by cbn].
  destruct (Py.splitlines text) as [|l0 ls]; [by cbn|].
  rewrite len_cons. pose proof (len_nonneg ls). lia.
Qed.

Lemma init_inv f name : inv (init f name).
Proof.
  unfold inv, init, line_at; cbn.
  pose proof (load_nonempty f name).
  pose proof (len_nonneg (load f name !!! Z.to_nat 0)). lia.
Qed.
(** *** The claims about the buffer *)

(** C1.  Every state the editor reaches keeps the invariant of the
    buffer: from the state [__init__] builds, for any file system,
    any file name and any keys, after any number of rounds of the main
    loop (each round one key: an insertion, a deletion, a backspace,
    a line split, a line opened, a cursor motion or a command) there
    is at least one line, the cursor row is the index of a line and
    the cursor column is between 0 and the length of that line. *)
Theorem buffer_invariant (f : FileSystem) (name : option str)
        (keys : list Z) (n : nat) :
  let s := ted (run n (mkWorld (init f name) keys f)).2 in
  1 <= Py.len (content s)
  /\ 0 <= cursor_y s < Py.len (content s)
  /\ 0 <= cursor_x s <= Py.len (content s !!! Z.to_nat (cursor_y s)).
Proof. apply (run_inv n (mkWorld (init f name) keys f)), init_inv. Qed.

(** C4.  Backspace in insert mode, on a buffer that satisfies the
    invariant.  With the cursor column above 0 the character before
    the cursor is removed, the column decreases by one and the buffer
    is dirty.  At column 0 of a row above 0 the line is appended to
    the previous line and deleted, the cursor moves to the previous
    row at the former length of that line, and the buffer is dirty.
    At row 0, column 0 nothing changes. *)
Theorem backspace_spec (w : World) (key : Z) :
  key = KEY_BACKSPACE \/ key = 127 ->
  inv (ted w) ->
  let s := ted w in
  let y := Z.to_nat (cursor_y s) in
  let x := Z.to_nat (cursor_x s) in
  exists s',
    handle_insert_mode key w = (Ret tt, mkWorld s' (pending w) (fs w))
    /\ (0 < cursor_x s ->
        s' = with_dirty true
               (with_cursor_x (cursor_x s - 1)
                  (with_content
                     (<[y := delete (x - 1)%nat (line_at s)]> (content s))
                     s)))
    /\ (cursor_x s = 0 -> 0 < cursor_y s ->
        s' = with_dirty true
               (with_cursor_y (cursor_y s - 1)
                  (with_cursor_x (Py.len (content s !!! (y - 1)%nat))
                     (with_content
                        (delete y
                           (<[(y - 1)%nat :=
                                content s !!! (y - 1)%nat ++ line_at s]>
                              (content s)))
                        s))))
    /\ (cursor_x s = 0 -> cursor_y s = 0 -> s' = s).
Proof.
  intros Hkey Hi. cbn zeta.
  assert (Hk : (key =? 27) = false
               /\ (key =? KEY_BACKSPACE) || (key =? 127) = true).
  { unfold KEY_BACKSPACE. destruct Hkey; subst; by vm_compute. }
  destruct Hk as [Hk1 Hk2].
  unfold handle_insert_mode.
  rewrite after_ensure by apply Hi. rewrite clamp_id by done.
  rewrite Hk1, Hk2.
  destruct w as [[fn c md y x msg q d] ks f].
  destruct Hi as (H1 & H2 & H3); unfold line_at in *; cbn in *.
  exec; eexists; (split; [reflexivity|]);
    unfold with_dirty, with_cursor_x, with_cursor_y, with_content; cbn.
  all: repeat split; intros; try lia; try done.
  - by rewrite slice_delete by lia.
  - replace (Z.to_nat (y - 1)) with (Z.to_nat y - 1)%nat by lia. done.
Qed.
(** Splitting line [k] at column [x] and merging the two halves again
    gives the list back. *)
Lemma split_merge_lines (c : list str) (k x : nat) :
  (k < length c)%nat ->
  let line := c !!! k in
  let c1 := <[k := take x line]>
              (take (S k) c ++ drop x line :: drop (S k) c) in
  c1 !!! k = take x line
  /\ delete (S k) (<[k := c1 !!! k ++ c1 !!! S k]> c1) = c.
Proof.
  intros Hk. cbn zeta.
  assert (Hl : c !! k = Some (c !!! k))
    by (by apply list_lookup_lookup_total_lt).
  set (line := c !!! k) in *.
  rewrite (take_S_r _ _ _ Hl), <- (assoc_L (++)). cbn [app].
  assert (Hp : length (take k c) = k) by (rewrite length_take; lia).
  set (pre := take k c) in *. set (post := drop (S k) c).
  assert (Hc1 : <[k := take x line]> (pre ++ line :: drop x line :: post)
                = pre ++ take x line :: drop x line :: post).
  { rewrite <- Hp at 1. rewrite <- (Nat.add_0_r (length pre)).
    by rewrite insert_app_r. }
  rewrite Hc1. split.
  - by apply list_lookup_total_middle.
  - rewrite (list_lookup_total_middle pre _ _ k) by done.
    replace ((pre ++ take x line :: drop x line :: post) !!! S k)
      with (drop x line).
    2:{ rewrite lookup_total_app_r by lia.
        by replace (S k - length pre)%nat with 1%nat by lia. }
    rewrite take_drop.
    rewrite <- Hp at 2. rewrite <- (Nat.add_0_r (length pre)).
    rewrite insert_app_r. cbn.
    replace (S k) with (length (pre ++ [line])).
    2:{ rewrite length_app. cbn. lia. }
    change (pre ++ line :: drop x line :: post)
      with (pre ++ [line] ++ drop x line :: post).
    rewrite (assoc_L (++)), delete_middle, <- (assoc_L (++)). cbn.
    by apply take_drop_middle.
Qed.
(** C7.  On a buffer that satisfies the invariant, Enter in insert
    mode moves the cursor to the start of the new line, and a
    backspace pressed there gives back the lines and the cursor
    position from before the Enter. *)
Theorem split_then_backspace (w : World) (enter bs : Z) :
  enter = KEY_ENTER \/ enter = 10 ->
  bs = KEY_BACKSPACE \/ bs = 127 ->
  inv (ted w) ->
  exists w1,
    handle_insert_mode enter w = (Ret tt, w1)
    /\ cursor_y (ted w1) = cursor_y (ted w) + 1
    /\ cursor_x (ted w1) = 0
    /\ exists w2,
    handle_insert_mode bs w1 = (Ret tt, w2)
    /\ content (ted w2) = content (ted w)
    /\ cursor_y (ted w2) = cursor_y (ted w)
    /\ cursor_x (ted w2) = cursor_x (ted w).
Proof.
  intros He Hb Hi.
  assert (Hk : (enter =? 27) = false
               /\ (enter =? KEY_BACKSPACE) || (enter =? 127) = false
               /\ (enter =? KEY_ENTER) || (enter =? 10) = true).
  { unfold KEY_ENTER, KEY_BACKSPACE. destruct He; subst; by vm_compute. }
  assert (Hk' : (bs =? 27) = false
                /\ (bs =? KEY_BACKSPACE) || (bs =? 127) = true).
  { unfold KEY_BACKSPACE. destruct Hb; subst; by vm_compute. }
  destruct Hk as (Hk1 & Hk2 & Hk3), Hk' as (Hk4 & Hk5).
  pose proof (handle_insert_mode_inv enter w (proj1 Hi)) as Hi1.
  revert Hi1. unfold handle_insert_mode at 1 2.
  rewrite after_ensure by apply Hi. rewrite clamp_id by done.
  rewrite Hk1, Hk2, Hk3.
  destruct w as [[fn c md y x msg q d] ks f].
  destruct Hi as (H1 & H2 & H3); unfold line_at in *; cbn in *.
  exec. intros Hi1.
  eexists. split; [reflexivity|]. cbn.
  split; [done|]. split; [done|].
  unfold handle_insert_mode.
  rewrite after_ensure by apply Hi1. rewrite clamp_id by done.
  rewrite Hk4, Hk5.
  destruct Hi1 as (H4 & H5 & H6); unfold line_at in *; cbn in *.
  exec; [|lia].
  rewrite insert_at_in, slice_to_in, slice_from_in by lia.
  replace (Z.to_nat (y + 1 - 1)) with (Z.to_nat y) by lia.
  replace (Z.to_nat (y + 1)) with (S (Z.to_nat y)) by lia.
  destruct (split_merge_lines c (Z.to_nat y) (Z.to_nat x)) as [E1 E2];
    [unfold Py.len in *; lia|].
  eexists. split; [reflexivity|]. cbn.
  split; [exact E2|]. split; [lia|].
  rewrite E1. unfold Py.len in *. rewrite length_take. lia.
Qed.
(** *** The command line *)

(** C8.  When the write fails, [save_file] only sets the message, to
    "Error writing file: " followed by the message of the error; the
    lines, the cursor, the dirty flag and every other attribute, the
    pending keys and the file system are as before. *)
Theorem save_failure_keeps_state (w : World) (e : str) :
  OS.write (fs w) (filename (ted w)) (Py.join Py.LF (content (ted w)))
  = inl e ->
  let w' := (save_file w).2 in
  save_file w
  = (Ret tt, mkWorld (with_message ("Error writing file: " ++ e) (ted w))
                     (pending w) (fs w))
  /\ message (ted w') = "Error writing file: " ++ e
  /\ content (ted w') = content (ted w)
  /\ cursor_y (ted w') = cursor_y (ted w)
  /\ cursor_x (ted w') = cursor_x (ted w)
  /\ dirty (ted w') = dirty (ted w).
Proof.
  intros Hw. cbn zeta. unfold save_file. rewrite Hw. by cbn.
Qed.

Lemma save_failure_keeps_state_witness :
  let w := mkWorld Sample.unsaved [] Sample.fs_ro in
  message (ted (save_file w).2)
  = "Error writing file: [Errno 13] Permission denied: '/ro/notes.txt'"
  /\ dirty (ted (save_file w).2) = true.
Proof.
  pose proof (save_failure_keeps_state
                (mkWorld Sample.unsaved [] Sample.fs_ro)
                "[Errno 13] Permission denied: '/ro/notes.txt'"
                eq_refl) as H.
  cbn zeta in H. destruct H as (_ & Hm & _ & _ & _ & Hd).
  split; [exact Hm | exact Hd].
Defined.

Lemma save_file_filename w :
  filename (ted (save_file w).2) = filename (ted w).
Proof. unfold save_file. by destruct (OS.write _ _ _). Qed.

Lemma save_file_ret w : (save_file w).1 = Ret tt.
Proof. unfold save_file. by destruct (OS.write _ _ _). Qed.

Lemma slice_from_prefix (name : str) :
  Py.slice_from ("w " ++ name) 2 = name.
Proof.
  unfold Py.slice_from, Py.slice_bound. cbn [Z.ltb Z.compare].
  rewrite len_app. change (Py.len "w ") with 2.
  pose proof (len_nonneg name).
  replace (Z.to_nat (2 `min` (2 + Py.len name))) with 2%nat by lia.
  reflexivity.
Qed.

(** C10.  The command [w <name>] sets the file name (to the text after
    [w ], without the white space around it) before it saves, and the
    name stays whatever the outcome of the save: when the write fails
    the state is the old one with the new file name and the error
    message. *)
Theorem w_name_sets_filename (w : World) (name : str) :
  let r := process_command ("w " ++ name) w in
  let w1 := mkWorld (with_filename (Some (Py.strip name)) (ted w))
                    (pending w) (fs w) in
  r = save_file w1
  /\ r.1 = Ret tt
  /\ filename (ted r.2) = Some (Py.strip name)
  /\ forall e,
      OS.write (fs w) (Some (Py.strip name))
               (Py.join Py.LF (content (ted w))) = inl e ->
      ted r.2 = with_message ("Error writing file: " ++ e)
                  (with_filename (Some (Py.strip name)) (ted w)).
Proof.
  cbn zeta.
  assert (E : process_command ("w " ++ name) w
              = save_file (mkWorld (with_filename (Some (Py.strip name))
                                                  (ted w))
                                   (pending w) (fs w))).
  { unfold process_command.
    rewrite !bool_decide_eq_false_2 by (cbn; destruct name; congruence).
    cbn [Py.startswith list_ascii_of_string app].
    rewrite !bool_decide_eq_true_2 by done. cbn [andb].
    replace (Py.startswith name []) with true by (by destruct name).
    change ("w"%char :: " "%char :: name) with ("w " ++ name).
    rewrite slice_from_prefix. reflexivity. }
  rewrite E. split; [done|]. split; [apply save_file_ret|].
  split; [by rewrite save_file_filename|].
  intros e He. unfold save_file; cbn [ted fs filename content with_filename].
  by rewrite He.
Qed.

Lemma w_name_sets_filename_witness :
  filename (ted (process_command "w /ro/notes.txt"
                   (mkWorld Sample.unnamed [] Sample.fs_ro)).2)
  = Some (list_ascii_of_string "/ro/notes.txt")
  /\ dirty (ted (process_command "w /ro/notes.txt"
                   (mkWorld Sample.unnamed [] Sample.fs_ro)).2) = true.
Proof.
  pose proof (w_name_sets_filename
                (mkWorld Sample.unnamed [] Sample.fs_ro)
                "/ro/notes.txt") as H.
  cbn zeta in H. destruct H as (_ & _ & Hf & He).
  split; [exact Hf|].
  exact (f_equal dirty
           (He "[Errno 13] Permission denied: '/ro/notes.txt'" eq_refl)).
Defined.
(** With a file name set, [wq] saves and then sets the quit flag,
    whatever the outcome of the save. *)
Lemma wq_quits_after_save (w : World) :
  truthy (filename (ted w)) = true ->
  process_command "wq" w
  = (Ret tt,
     mkWorld (with_quit true (ted (save_file w).2))
             (pending (save_file w).2) (fs (save_file w).2)).
Proof.
  intros Hf. unfold process_command.
  rewrite !bool_decide_eq_false_2 by (by vm_compute).
  rewrite bool_decide_eq_true_2 by done.
  unfold mbind, M_bind, get, set. cbn. rewrite Hf. cbn.
  pose proof (save_file_ret w) as Hr.
  destruct (save_file w) as [r w']; cbn in *. by subst r.
Qed.

(** With no file name, [wq] and [w] of [ted.py] raise: the method
    each of them calls is not defined. *)
Lemma wq_without_filename_raises (w : World) :
  truthy (filename (ted w)) = false ->
  process_command "wq" w
  = (Raise (AttributeError "get_filename_for_save"), w).
Proof.
  intros Hf. unfold process_command, get_filename_for_save.
  rewrite !bool_decide_eq_false_2 by (by vm_compute).
  rewrite bool_decide_eq_true_2 by done.
  unfold mbind, M_bind, get, raise. cbn. rewrite Hf. by cbn.
Qed.

Lemma w_without_filename_raises (w : World) :
  truthy (filename (ted w)) = false ->
  process_command "w" w
  = (Raise (AttributeError "get_command_input"),
     mkWorld (with_message "Enter filename: " (ted w))
             (pending w) (fs w)).
Proof.
  intros Hf. unfold process_command, get_command_input.
  rewrite !bool_decide_eq_false_2 by (by vm_compute).
  rewrite bool_decide_eq_true_2 by done.
  unfold mbind, M_bind, get, set, raise. cbn. rewrite Hf. by cbn.
Qed.

(** With a file name set, [w] is [save_file]: it writes the lines to
    that file; when the write fails the message is set and the quit
    flag is as before. *)
Lemma w_saves_to_filename (w : World) :
  truthy (filename (ted w)) = true ->
  process_command "w" w = save_file w
  /\ quit (ted (save_file w).2) = quit (ted w).
Proof.
  intros Hf. split.
  - unfold process_command.
    rewrite !bool_decide_eq_false_2 by (by vm_compute).
    rewrite bool_decide_eq_true_2 by done.
    unfold mbind, M_bind, get. cbn. by rewrite Hf.
  - unfold save_file. by destruct (OS.write _ _ _).
Qed.

(** C2.  [wq] on an edited buffer whose file cannot be written: the
    save fails, and the quit flag is set all the same; the buffer is
    still dirty and the file system has no file.  The claim has the
    editor stay open here. *)
Theorem wq_quits_on_failed_save :
  let w := mkWorld Sample.unsaved [] Sample.fs_ro in
  let r := process_command "wq" w in
  r.1 = Ret tt
  /\ quit (ted r.2) = true
  /\ dirty (ted r.2) = true
  /\ message (ted r.2)
     = "Error writing file: [Errno 13] Permission denied: '/ro/notes.txt'"
  /\ files (fs r.2) = ∅.
Proof. cbn zeta. rewrite wq_quits_after_save by done. by vm_compute. Qed.

(** C6.  [w] on a buffer with no file name: [ted.py] asks for the name
    through a method that class [Ted] does not define, so the command
    raises [AttributeError] and the main loop ends; nothing is saved.
    The claim has the editor prompt for a name and save. *)
Theorem w_without_filename_fails :
  let w := mkWorld Sample.unnamed [] Sample.fs_empty in
  let r := process_command "w" w in
  r.1 = Raise (AttributeError "get_command_input")
  /\ files (fs r.2) = ∅
  /\ dirty (ted r.2) = true
  /\ (forall n,
        (run (S n) (mkWorld Sample.unnamed
                            [key_of ":"; key_of "w"; 10] Sample.fs_empty)).1
        = Raise (AttributeError "get_command_input")).
Proof.
  cbn zeta. rewrite w_without_filename_raises by done.
  split; [done|]. split; [done|]. split; [done|].
  intros n. by vm_compute.
Qed.
(** *** The two-key command [gg] *)

(** C5, as the code has it.  In normal mode, on a buffer with at least
    one line, the key [g] reads exactly one more key.  When that key is
    [g] the cursor row becomes 0 and the column is reduced to the
    length of line 0 if it is beyond it.  Any other key is read and
    dropped: the state is the one the cursor repair left, and the key
    is not run as a command. *)
Theorem g_reads_one_key (w : World) (k : Z) (rest : list Z) :
  1 <= Py.len (content (ted w)) ->
  pending w = k :: rest ->
  let s := clamp (ted w) in
  handle_normal_mode (key_of "g") w
  = (Ret tt,
     mkWorld
       (if k =? key_of "g"
        then with_cursor_x
               (Z.min (cursor_x s) (Py.len (content s !!! 0%nat)))
               (with_cursor_y 0 s)
        else s)
       rest (fs w)).
Proof.
  intros Hc Hp. cbn zeta. unfold handle_normal_mode.
  rewrite after_ensure by exact Hc.
  pose proof (clamp_inv (ted w) Hc) as Hi.
  destruct w as [s0 ks f]; cbn in Hp; subst ks.
  cbn [ted pending fs] in *.
  destruct (clamp s0) as [fn c md y x msg q d].
  destruct Hi as (H1 & H2 & H3); unfold line_at in *; cbn in H1, H2, H3.
  repeat match goal with
         | |- context [key_of ?a =? ?b] =>
             let v := eval vm_compute in (key_of a =? b) in
             change (key_of a =? b) with v
         end.
  cbn [orb].
  unfold mbind at 1, M_bind at 1, getch; cbn.
  destruct (k =? _); [|reflexivity].
  exec. reflexivity.
Qed.

Lemma g_reads_one_key_witness :
  handle_normal_mode (key_of "g")
    (mkWorld Sample.unsaved [key_of "g"; key_of "x"] Sample.fs_ro)
  = (Ret tt,
     mkWorld (with_cursor_y 0 Sample.unsaved) [key_of "x"] Sample.fs_ro).
Proof.
  rewrite (g_reads_one_key
             (mkWorld Sample.unsaved [key_of "g"; key_of "x"] Sample.fs_ro)
             (key_of "g") [key_of "x"]); [reflexivity | by vm_compute | reflexivity].
Defined.

(** C5 as the claim states it fails: after [g], the key [x] is not run
    as a fresh normal-mode key.  On its own [x] deletes the character
    under the cursor; after [g] it leaves the buffer as it is. *)
Lemma g_drops_second_key :
  let w := mkWorld Sample.unnamed [key_of "x"] Sample.fs_empty in
  let w' := mkWorld Sample.unnamed [] Sample.fs_empty in
  content (ted (handle_normal_mode (key_of "g") w).2)
  = [list_ascii_of_string "abc"]
  /\ content (ted (handle_normal_mode (key_of "x") w').2)
     = [list_ascii_of_string "bc"]
  /\ handle_normal_mode (key_of "g") w
     <> handle_normal_mode (key_of "x") w'.
Proof. cbn zeta. split; [|split]; by vm_compute. Qed.
End TedFacts.

(** * Saving and loading *)
Module RoundTrip.
Import Ted.

Lemma splitlines_from_app cur x rest :
  no_linebreak x ->
  Py.splitlines_from cur (x ++ rest) = Py.splitlines_from (cur ++ x) rest.
Proof.
  intros Hx. revert cur. induction Hx as [|c x Hc _ IH]; intros cur.
  - by rewrite app_nil_r.
  - cbn. rewrite Hc, IH. by rewrite <- (assoc_L (++)).
Qed.

Lemma splitlines_from_LF cur rest :
  Py.splitlines_from cur (Py.LF ++ rest)
  = cur :: Py.splitlines_from [] rest.
Proof. cbn. by destruct rest. Qed.

Lemma splitlines_from_end cur x :
  no_linebreak x ->
  Py.splitlines_from cur x
  = match cur ++ x with [] => [] | l => [l] end.
Proof.
  intros Hx. rewrite <- (app_nil_r x) at 1.
  rewrite splitlines_from_app by done. cbn. by destruct (cur ++ x).
Qed.

(** Splitting the joined lines gives the lines back, but for one empty
    line at the end. *)
Lemma splitlines_join (l : list str) :
  Forall no_linebreak l ->
  Py.splitlines (Py.join Py.LF l) = drop_last_empty l.
Proof.
  unfold Py.splitlines.
  induction 1 as [|x l Hx Hl IH]; [done|].
  destruct l as [|y l].
  - cbn [Py.join drop_last_empty]. rewrite splitlines_from_end by done.
    by destruct x.
  - change (Py.join Py.LF (x :: y :: l))
      with (x ++ Py.LF ++ Py.join Py.LF (y :: l)).
    rewrite splitlines_from_app, splitlines_from_LF by done.
    rewrite IH. reflexivity.
Qed.

Lemma universal_newlines_id (s : str) :
  Forall (fun c => Py.ord c <> 13) s -> OS.universal_newlines s = s.
Proof.
  induction 1 as [|c s Hc _ IH]; [done|]. cbn.
  destruct (Z.eqb_spec (Py.ord c) 13); [done|]. by rewrite IH.
Qed.

Lemma no_linebreak_no_CR (s : str) :
  no_linebreak s -> Forall (fun c => Py.ord c <> 13) s.
Proof.
  intros Hs. eapply Forall_impl; [exact Hs|].
  intros c Hc E. unfold Py.is_linebreak in Hc. rewrite E in Hc.
  by vm_compute in Hc.
Qed.

Lemma join_no_CR (l : list str) :
  Forall no_linebreak l ->
  Forall (fun c => Py.ord c <> 13) (Py.join Py.LF l).
Proof.
  induction 1 as [|x l Hx Hl IH]; [constructor|].
  destruct l as [|y l]; [by apply no_linebreak_no_CR|].
  change (Py.join Py.LF (x :: y :: l))
    with (x ++ Py.LF ++ Py.join Py.LF (y :: l)).
  rewrite !Forall_app. split; [by apply no_linebreak_no_CR|].
  split; [|done]. by repeat constructor.
Qed.

Lemma strip_drop_last_empty (l : list str) :
  strip_trailing_empty (drop_last_empty l) = strip_trailing_empty l.
Proof.
  induction l as [|x l IH]; [done|].
  destruct l as [|y l]; [by destruct x|].
  change (drop_last_empty (x :: y :: l))
    with (x :: drop_last_empty (y :: l)).
  cbn [strip_trailing_empty] in *. by rewrite IH.
Qed.

Lemma drop_last_empty_id (l : list str) (x : str) :
  last l = Some x -> x <> [] -> drop_last_empty l = l.
Proof.
  induction l as [|y l IH]; [done|].
  destruct l as [|z l].
  - cbn. intros [= ->] Hx. by destruct x.
  - intros Hl Hx.
    change (drop_last_empty (y :: z :: l))
      with (y :: drop_last_empty (z :: l)).
    f_equal. by apply IH.
Qed.

(** What [__init__] loads from the file a successful [save_file]
    wrote. *)
Lemma load_after_save (w : World) (p : str) :
  filename (ted w) = Some p ->
  p <> [] ->
  unwritable (fs w) !! p = None ->
  Forall no_linebreak (content (ted w)) ->
  load (fs (save_file w).2) (Some p)
  = match drop_last_empty (content (ted w)) with
    | [] => [ [] ]
    | r => r
    end.
Proof.
  intros Hf Hp Hu Hl. unfold save_file, OS.write. rewrite Hf.
  destruct p as [|c p]; [done|]. rewrite Hu. cbn [snd fs].
  unfold load, OS.exists_, OS.read. cbn [truthy andb files].
  rewrite lookup_insert_eq. cbn [fmap option_fmap option_map].
  rewrite bool_decide_eq_true_2 by eauto.
  rewrite universal_newlines_id by (by apply join_no_CR).
  by rewrite splitlines_join.
Qed.

(** C3.  Save, then load the same path.  For a buffer whose lines
    contain no line-break character and a path that can be written,
    the lines loaded from the file just saved are the lines of the
    buffer up to trailing newlines: they have the same normal form.
    Exactly, what comes back is the buffer without one empty line at
    its end (and one empty line if nothing is left); when the last line
    is not empty the buffer comes back as it was. *)
Theorem save_then_load (w : World) (p : str) :
  filename (ted w) = Some p ->
  p <> [] ->
  unwritable (fs w) !! p = None ->
  Forall no_linebreak (content (ted w)) ->
  let back := load (fs (save_file w).2) (Some p) in
  normalize back = normalize (content (ted w))
  /\ back = match drop_last_empty (content (ted w)) with
            | [] => [ [] ]
            | r => r
            end
  /\ (forall x, last (content (ted w)) = Some x -> x <> [] ->
                back = content (ted w)).
Proof.
  intros Hf Hp Hu Hl. cbn zeta.
  rewrite (load_after_save w p Hf Hp Hu Hl).
  split; [|split; [done|]].
  - unfold normalize at 2.
    rewrite <- (strip_drop_last_empty (content (ted w))).
    destruct (drop_last_empty (content (ted w))); reflexivity.
  - intros x Hx Hne. rewrite (drop_last_empty_id _ x Hx Hne).
    destruct (content (ted w)); [done|reflexivity].
Qed.

Lemma save_then_load_witness :
  load (fs (save_file (mkWorld Sample.named [] Sample.fs_empty)).2)
       (Some (list_ascii_of_string "/tmp/a.txt"))
  = [list_ascii_of_string "one"; list_ascii_of_string "two"]
  /\ normalize [list_ascii_of_string "one"; list_ascii_of_string "two"]
     = normalize (content Sample.named).
Proof.
  assert (Hl : Forall no_linebreak (content Sample.named)).
  { repeat constructor. }
  destruct (save_then_load (mkWorld Sample.named [] Sample.fs_empty)
              "/tmp/a.txt" eq_refl ltac:(discriminate) eq_refl Hl)
    as (Hn & Hb & _).
  split; [exact Hb | exact Hn].
Defined.
End RoundTrip.

(** * Rule selection *)
Module RulesFacts.
Import TedConfig.

Lemma replace_app old new (a b : str) :
  Py.replace old new (a ++ b) = Py.replace old new a ++ Py.replace old new b.
Proof.
  induction a as [|c a IH]; [done|]. cbn. rewrite IH.
  by rewrite (assoc_L (++)).
Qed.

Lemma to_regex_cons c (p : str) :
  to_regex (c :: p) = to_regex [c] ++ to_regex p.
Proof.
  unfold to_regex. change (c :: p) with ([c] ++ p).
  by rewrite !replace_app.
Qed.

Lemma to_regex_char c :
  to_regex [c]
  = if bool_decide (c = "."%char) then list_ascii_of_string "\."
    else if bool_decide (c = "*"%char) then list_ascii_of_string ".*"
    else if bool_decide (c = "?"%char) then list_ascii_of_string "."
    else [c].
Proof.
  unfold to_regex. cbn.
  repeat (case_bool_decide; subst; cbn; try done).
  all: repeat (case_bool_decide; subst; cbn; try done).
Qed.

Lemma plain_spec c :
  Wild.plain c = true ->
  c <> "\"%char /\ c <> "+"%char /\ Re.is_unsupported c = false.
Proof.
  unfold Wild.plain, Re.is_unsupported.
  rewrite negb_true_iff, bool_decide_eq_false. intros Hc.
  cbn in Hc. rewrite !not_elem_of_cons in Hc.
  split; [tauto|]. split; [tauto|].
  apply bool_decide_eq_false. cbn. rewrite !not_elem_of_cons. tauto.
Qed.

(** The tokens of a translated character. *)
Lemma tokens_group c (rest : str) :
  Wild.plain c = true ->
  Re.tokens (to_regex [c] ++ rest)
  = (Wild.tokens_of c ++.) <$> Re.tokens rest.
Proof.
  intros Hc. destruct (plain_spec c Hc) as (H1 & H2 & H3).
  rewrite to_regex_char. unfold Wild.tokens_of, Wild.item_of.
  repeat case_bool_decide; subst; try done.
  - cbn [app list_ascii_of_string Re.tokens].
    rewrite (bool_decide_eq_false_2 ("."%char = "\"%char)) by done.
    rewrite (bool_decide_eq_true_2 ("."%char = "."%char)) by done.
    cbn [Re.tokens].
    rewrite !bool_decide_eq_false_2 by done.
    rewrite (bool_decide_eq_true_2 ("*"%char = "*"%char)) by done.
    by destruct (Re.tokens rest).
  - cbn [app Re.tokens]. rewrite H3.
    rewrite !bool_decide_eq_false_2 by done.
    by destruct (Re.tokens rest).
Qed.

Lemma tokens_to_regex (p : str) :
  Forall (fun c => Wild.plain c = true) p ->
  Re.tokens (to_regex p) = Some (p ≫= Wild.tokens_of).
Proof.
  induction 1 as [|c p Hc _ IH]; [done|].
  rewrite to_regex_cons, tokens_group, IH by done. reflexivity.
Qed.

Lemma items_tokens (p : str) :
  Re.items (p ≫= Wild.tokens_of) = Some (Wild.item_of <$> p).
Proof.
  induction p as [|c p IH]; [done|].
  cbn [mbind list_bind fmap list_fmap] in *.
  assert (Hhead : p ≫= Wild.tokens_of = []
                  \/ exists a ts, p ≫= Wild.tokens_of = Re.TAtom a :: ts).
  { destruct p as [|d p]; [by left|right]. cbn.
    unfold Wild.tokens_of. destruct (Wild.item_of d) as [a []]; cbn; eauto. }
  unfold Wild.tokens_of at 1.
  destruct (Wild.item_of c) as [a q] eqn:E.
  destruct q; cbn [app Re.items]; rewrite ?IH; try done.
  destruct Hhead as [Hn | (b & ts & Hn)]; rewrite Hn in *;
    cbn [Re.items]; by rewrite ?IH.
Qed.

Lemma parse_to_regex (p : str) :
  Forall (fun c => Wild.plain c = true) p ->
  Re.parse (to_regex p) = Some (Wild.item_of <$> p).
Proof.
  intros Hp. unfold Re.parse. rewrite tokens_to_regex by done.
  cbn. apply items_tokens.
Qed.

(** On a name with no newline the translated pattern matches what the
    wildcard pattern matches. *)
Lemma matches_wild (p s : str) :
  Forall (fun c => Py.ord c <> 10) s ->
  Re.matches (Wild.item_of <$> p) s = wildcard_match p s.
Proof.
  revert s. induction p as [|c p IH]; intros s Hs; [done|].
  cbn [fmap list_fmap Re.matches wildcard_match].
  unfold Wild.item_of. case_bool_decide as Hstar.
  - induction Hs as [|d s Hd Hs IHs].
    + by rewrite IH by constructor.
    + rewrite IH by (by constructor). f_equal.
      cbn [Re.atom_matches]. destruct (Z.eqb_spec (Py.ord d) 10); [done|].
      cbn [negb andb]. exact IHs.
  - destruct Hs as [|d s Hd Hs]; [by case_bool_decide|].
    case_bool_decide as Hq; cbn [Re.atom_matches orb].
    + destruct (Z.eqb_spec (Py.ord d) 10); [done|].
      cbn [negb andb]. by apply IH.
    + rewrite IH by done. f_equal.
      apply bool_decide_ext. naive_solver.
Qed.

Lemma fullmatch_to_regex (p s : str) :
  Forall (fun c => Wild.plain c = true) p ->
  Forall (fun c => Py.ord c <> 10) s ->
  Re.fullmatch (to_regex p) s = Some (wildcard_match p s).
Proof.
  intros Hp Hs. unfold Re.fullmatch. rewrite parse_to_regex by done.
  cbn. by rewrite matches_wild.
Qed.

(** For plain patterns and a base name with no newline,
    [get_rules_for_file] selects by wildcard. *)
Lemma get_rules_on_plain_patterns {Rule} (basename : str -> str)
      (entries : list (str * list Rule)) (name : str) :
  Forall (fun e => Forall (fun c => Wild.plain c = true) e.1) entries ->
  Forall (fun c => Py.ord c <> 10) (basename name) ->
  name <> [] ->
  get_rules_for_file basename entries (Some name)
  = Some (Wild.select entries (basename name)).
Proof.
  intros He Hb Hn. destruct name as [|c n]; [done|].
  cbn [get_rules_for_file]. unfold Wild.select.
  induction He as [|[pat rules] entries Hp _ IH]; [done|].
  cbn [first_match List.find fst snd].
  rewrite fullmatch_to_regex by done.
  destruct (wildcard_match pat _); [done|]. exact IH.
Qed.

(** The scenario of the specification: [*.py] selects the rules for
    [main.py] and none for [main.pyc]. *)
Lemma star_py_scenario :
  get_rules_for_file tail Wild.config (Some (list_ascii_of_string "main.py"))
  = Some Wild.rules_py
  /\ get_rules_for_file tail Wild.config
       (Some (list_ascii_of_string "src/main.pyc")) = Some []
  /\ wildcard_match "*.py" "main.py" = true
  /\ wildcard_match "*.py" "main.pyc" = false.
Proof. repeat split; by vm_compute. Qed.

(** C9.  A pattern with a character that [re] reads specially, other
    than the three that are translated: the entry [a+.txt] is not
    selected for the file [a+.txt], which the wildcard pattern matches
    character by character, and it is selected for [aaa.txt], which the
    wildcard pattern does not match.  The claim has every character but
    [*] and [?] stand for itself. *)
Theorem plus_is_read_as_regex :
  get_rules_for_file tail Wild.config (Some (list_ascii_of_string "a+.txt"))
  = Some []
  /\ Wild.select Wild.config (tail "a+.txt") = Wild.rules_txt
  /\ get_rules_for_file tail Wild.config
       (Some (list_ascii_of_string "aaa.txt")) = Some Wild.rules_txt
  /\ Wild.select Wild.config (tail "aaa.txt") = [].
Proof. repeat split; by vm_compute. Qed.
End RulesFacts.

(** * The buffer operations on a sample buffer *)
Module Checks.
Import Ted Curses TedFacts.

(** Backspace at row 1, column 2 of ["hello"; "world"] removes the
    [o] of [world]. *)
Lemma backspace_spec_witness :
  exists s',
    handle_insert_mode KEY_BACKSPACE
      (mkWorld Sample.unsaved [] Sample.fs_ro)
    = (Ret tt, mkWorld s' [] Sample.fs_ro)
    /\ content s' = [list_ascii_of_string "hello";
                     list_ascii_of_string "wrld"]
    /\ cursor_x s' = 1.
Proof.
  destruct (backspace_spec (mkWorld Sample.unsaved [] Sample.fs_ro)
              KEY_BACKSPACE (or_introl eq_refl))
    as (s' & Hrun & Hx & _).
  { unfold inv, line_at. cbn. vm_compute.
    repeat split; discriminate. }
  exists s'. split; [exact Hrun|].
  rewrite (Hx eq_refl). split; reflexivity.
Defined.

(** Enter, then backspace, in the middle of [world]. *)
Lemma split_then_backspace_witness :
  exists w1,
    handle_insert_mode 10 (mkWorld Sample.unsaved [] Sample.fs_ro)
    = (Ret tt, w1)
    /\ exists w2,
      handle_insert_mode 127 w1 = (Ret tt, w2)
      /\ content (ted w2) = content Sample.unsaved
      /\ cursor_y (ted w2) = 1 /\ cursor_x (ted w2) = 2.
Proof.
  destruct (split_then_backspace (mkWorld Sample.unsaved [] Sample.fs_ro)
              10 127 (or_intror eq_refl) (or_intror eq_refl))
    as (w1 & H1 & _ & _ & w2 & H2 & Hc & Hy & Hx).
  { unfold inv, line_at. cbn. vm_compute.
    repeat split; discriminate. }
  exists w1. split; [exact H1|].
  exists w2. split; [exact H2|]. split; [exact Hc|].
  split; [exact Hy | exact Hx].
Defined.
End Checks.

(** * The lines of a reachable buffer contain no line break *)
Module Lines.
Import Ted Curses TedFacts.

#[local] Arguments Py.getitem : simpl never.
#[local] Arguments Py.setitem : simpl never.
#[local] Arguments Py.delitem : simpl never.
#[local] Arguments Py.slice_to : simpl never.
#[local] Arguments Py.slice_from : simpl never.
#[local] Arguments Py.insert_at : simpl never.
#[local] Arguments Py.len : simpl never.
#[local] Arguments Z.min : simpl never.
#[local] Arguments Z.max : simpl never.

Lemma ord_chr (k : Z) : 0 <= k < 256 -> Py.ord (Py.chr k) = k.
Proof.
  intros Hk. unfold Py.ord, Py.chr.
  rewrite N_ascii_embedding by lia. lia.
Qed.

Lemma printable_no_linebreak (k : Z) :
  32 <= k <= 126 -> Py.is_linebreak (Py.chr k) = false.
Proof.
  intros Hk. unfold Py.is_linebreak. rewrite ord_chr by lia. cbn zeta.
  repeat (rewrite (proj2 (Z.eqb_neq k _)) by lia). reflexivity.
Qed.

Lemma no_linebreak_slice_to (l : str) i :
  no_linebreak l -> no_linebreak (Py.slice_to l i).
Proof. apply Forall_take. Qed.

Lemma no_linebreak_slice_from (l : str) i :
  no_linebreak l -> no_linebreak (Py.slice_from l i).
Proof. apply Forall_drop. Qed.

Lemma clean_insert_at (c : list str) i (v : str) :
  Forall no_linebreak c -> no_linebreak v ->
  Forall no_linebreak (Py.insert_at c i v).
Proof.
  intros Hc Hv. unfold Py.insert_at.
  apply Forall_app_2; [by apply Forall_take|].
  constructor; [done|]. by apply Forall_drop.
Qed.

Lemma clean_lookup (c : list str) k :
  Forall no_linebreak c -> no_linebreak (c !!! k).
Proof.
  intros Hc. destruct (decide (k < length c)%nat) as [Hk|Hk].
  - by apply Forall_lookup_total_1.
  - rewrite list_lookup_total_alt, lookup_ge_None_2 by lia. constructor.
Qed.

Ltac clean :=
  repeat first
    [ assumption
    | apply Forall_insert
    | apply Forall_delete
    | apply clean_insert_at
    | apply Forall_app_2
    | apply no_linebreak_slice_to
    | apply no_linebreak_slice_from
    | apply clean_lookup
    | apply Forall_nil_2
    | apply Forall_cons_2 ].

Lemma handle_insert_mode_clean key w :
  1 <= Py.len (content (ted w)) ->
  Forall no_linebreak (content (ted w)) ->
  Forall no_linebreak (content (ted (handle_insert_mode key w).2)).
Proof.
  intros Hc Hl. unfold handle_insert_mode.
  rewrite <- (clamp_content (ted w)) in Hl. start_handler Hc.
  destruct w as [s0 ks f]; cbn in *.
  exec; clean.
  apply printable_no_linebreak.
  apply andb_true_iff in Heqb6. lia.
Qed.

Lemma handle_normal_mode_clean key w :
  1 <= Py.len (content (ted w)) ->
  Forall no_linebreak (content (ted w)) ->
  Forall no_linebreak (content (ted (handle_normal_mode key w).2)).
Proof.
  intros Hc Hl. unfold handle_normal_mode.
  rewrite <- (clamp_content (ted w)) in Hl. start_handler Hc.
  destruct w as [s0 ks f]; cbn in *.
  exec; clean.
  pose proof (get_command_loop_same_buffer ks []
                (mkWorld (mkTed fn c md y x msg q d) ks f)) as (Hs & _).
  cbn in Hs. by rewrite Hs.
Qed.

Lemma handle_input_clean w :
  inv (ted w) ->
  Forall no_linebreak (content (ted w)) ->
  Forall no_linebreak (content (ted (handle_input w).2)).
Proof.
  intros Hi Hl. unfold handle_input.
  unfold mbind at 1, M_bind at 1, getch.
  destruct w as [s ks f]; cbn in *.
  destruct ks as [|key ks]; cbn; [done|].
  unfold mbind, M_bind, get; cbn.
  destruct (mode s).
  - apply handle_normal_mode_clean; cbn; [apply Hi | done].
  - apply handle_insert_mode_clean; cbn; [apply Hi | done].
Qed.

Lemma run_clean n w :
  inv (ted w) ->
  Forall no_linebreak (content (ted w)) ->
  Forall no_linebreak (content (ted (run n w).2)).
Proof.
  revert w. induction n as [|n IH]; intros w Hi Hl; cbn; [done|].
  unfold mbind at 1, M_bind at 1, get; cbn.
  destruct (quit (ted w)); [done|].
  unfold mbind at 1, M_bind at 1, display, set; cbn.
  unfold mbind at 1, M_bind at 1.
  set (w0 := mkWorld (with_message [] (ted w)) (pending w) (fs w)).
  assert (Hi0 : inv (ted w0))
    by (eapply inv_same_buffer; [|exact Hi]; by unfold same_buffer).
  pose proof (handle_input_inv w0 Hi0) as Hh.
  pose proof (handle_input_clean w0 Hi0 Hl) as Hc.
  destruct (handle_input w0) as [[[]| |] w1]; cbn in *; try done.
  by apply IH.
Qed.

Lemma splitlines_from_clean n :
  forall (s cur : str),
    (length s <= n)%nat -> no_linebreak cur ->
    Forall no_linebreak (Py.splitlines_from cur s).
Proof.
  induction n as [|n IH]; intros s cur Hn Hc; destruct s as [|c s];
    cbn in Hn; try lia.
  - cbn. destruct cur; [apply Forall_nil_2|].
    apply Forall_cons_2; [exact Hc | apply Forall_nil_2].
  - cbn. destruct cur; [apply Forall_nil_2|].
    apply Forall_cons_2; [exact Hc | apply Forall_nil_2].
  - cbn [Py.splitlines_from]. destruct (Py.is_linebreak c) eqn:Hb.
    + constructor; [done|].
      destruct s as [|d s]; [apply IH; [cbn; lia | constructor]|].
      destruct (_ && _); apply IH; cbn in *; try lia; constructor.
    + apply IH; [lia|]. apply Forall_app_2; [done|]. by repeat constructor.
Qed.

Lemma load_clean f name : Forall no_linebreak (load f name).
Proof.
  unfold load. destruct name as [p|]; [|by repeat constructor].
  destruct (truthy _ && _); [|by repeat constructor].
  destruct (OS.read f p) as [text|]; [|by repeat constructor].
  pose proof (splitlines_from_clean (length text) text [] (le_n _)
                (Forall_nil_2 _)) as Hs.
  fold (Py.splitlines text) in Hs.
  destruct (Py.splitlines text); [by repeat constructor | done].
Qed.

(** X1.  No line of a buffer the editor reaches contains a character
    that breaks a line (LF, CR, VT, FF, FS, GS, RS, NEL): the lines
    loaded at start come from [splitlines], and the keys that insert
    text are the printable ones. *)
Theorem reachable_lines_have_no_linebreak (f : FileSystem)
        (name : option str) (keys : list Z) (n : nat) :
  Forall no_linebreak
         (content (ted (run n (mkWorld (init f name) keys f)).2)).
Proof.
  apply (run_clean n (mkWorld (init f name) keys f)).
  - apply init_inv.
  - apply load_clean.
Qed.
End Lines.

(** * The editing keys, one by one *)
Module Editing.
Import Ted Curses TedFacts.

#[local] Arguments Py.getitem : simpl never.
#[local] Arguments Py.setitem : simpl never.
#[local] Arguments Py.delitem : simpl never.
#[local] Arguments Py.slice_to : simpl never.
#[local] Arguments Py.slice_from : simpl never.
#[local] Arguments Py.insert_at : simpl never.
#[local] Arguments Py.len : simpl never.
#[local] Arguments Z.min : simpl never.
#[local] Arguments Z.max : simpl never.

(** Decide the tests a handler makes on a key that is a given
    character. *)
Ltac key_tests :=
  repeat match goal with
         | |- context [key_of ?a =? ?b] =>
             let v := eval vm_compute in (key_of a =? b) in
             change (key_of a =? b) with v
         end;
  cbn [orb andb].

(** Start the proof of what a handler does on a state that satisfies
    the invariant. *)
Ltac on_inv Hi :=
  rewrite after_ensure by apply Hi; rewrite clamp_id by exact Hi;
  match goal with
  | w : World |- _ =>
      destruct w as [[fn c md y x msg q d] ks f];
      destruct Hi as (H1 & H2 & H3); unfold line_at in *; cbn in *
  end.

(** X2.  A key handler repairs a cursor that is out of bounds: from any
    state with at least one line, whatever the cursor, the state after
    one key in normal mode or in insert mode satisfies the invariant of
    the buffer. *)
Theorem key_repairs_cursor (key : Z) (w : World) :
  1 <= Py.len (content (ted w)) ->
  inv (ted (handle_normal_mode key w).2)
  /\ inv (ted (handle_insert_mode key w).2).
Proof.
  intros Hc. split.
  - by apply handle_normal_mode_inv.
  - by apply handle_insert_mode_inv.
Qed.

Lemma key_repairs_cursor_witness :
  cursor_y (ted (handle_normal_mode (key_of "h")
                   (mkWorld Sample2.stray [] Sample.fs_empty)).2) = 1
  /\ inv (ted (handle_normal_mode (key_of "h")
                 (mkWorld Sample2.stray [] Sample.fs_empty)).2).
Proof.
  split; [reflexivity|].
  apply (key_repairs_cursor (key_of "h")
           (mkWorld Sample2.stray [] Sample.fs_empty)).
  by vm_compute.
Defined.

(** X3.  The key [x] in normal mode, on a buffer that satisfies the
    invariant: with a character under the cursor, that character is
    removed from the line, the cursor stays and the buffer is dirty; with
    the cursor at the end of the line nothing changes, the dirty flag
    included. *)
Theorem x_deletes_under_cursor (w : World) :
  inv (ted w) ->
  let s := ted w in
  handle_normal_mode (key_of "x") w
  = (Ret tt,
     mkWorld
       (if cursor_x s <? Py.len (line_at s)
        then with_dirty true
               (with_content
                  (<[Z.to_nat (cursor_y s) :=
                       delete (Z.to_nat (cursor_x s)) (line_at s)]>
                     (content s)) s)
        else s)
       (pending w) (fs w)).
Proof.
  intros Hi. cbn zeta. unfold handle_normal_mode. on_inv Hi.
  key_tests. exec; unfold with_dirty, with_content; cbn;
    try lia; try reflexivity.
  rewrite slice_to_in, slice_from_in by lia.
  rewrite delete_take_drop.
  replace (Z.to_nat (x + 1)) with (S (Z.to_nat x)) by lia. reflexivity.
Qed.

Lemma x_deletes_under_cursor_witness :
  content (ted (handle_normal_mode (key_of "x")
                  (mkWorld Sample2.draft [] Sample.fs_empty)).2)
  = [list_ascii_of_string "ac"; list_ascii_of_string "de"].
Proof.
  rewrite (x_deletes_under_cursor (mkWorld Sample2.draft [] Sample.fs_empty)).
  - reflexivity.
  - by vm_compute.
Defined.

Lemma insert_char_exec (w : World) (key : Z) :
  32 <= key <= 126 ->
  inv (ted w) ->
  let s := ted w in
  let x := Z.to_nat (cursor_x s) in
  handle_insert_mode key w
  = (Ret tt,
     mkWorld
       (with_dirty true
          (with_cursor_x (cursor_x s + 1)
             (with_content
                (<[Z.to_nat (cursor_y s) :=
                     take x (line_at s) ++ Py.chr key :: drop x (line_at s)]>
                   (content s)) s)))
       (pending w) (fs w)).
Proof.
  intros Hk Hi. cbn zeta. unfold handle_insert_mode. on_inv Hi.
  assert (Hs : (key =? 27) = false
               /\ (key =? KEY_BACKSPACE) || (key =? 127) = false
               /\ (key =? KEY_ENTER) || (key =? 10) = false
               /\ (key =? KEY_LEFT) = false /\ (key =? KEY_RIGHT) = false
               /\ (key =? KEY_UP) = false /\ (key =? KEY_DOWN) = false
               /\ (32 <=? key) && (key <=? 126) = true).
  { unfold KEY_BACKSPACE, KEY_ENTER, KEY_LEFT, KEY_RIGHT, KEY_UP, KEY_DOWN.
    repeat split;
      rewrite ?orb_false_iff, ?andb_true_iff; repeat split; lia. }
  destruct Hs as (-> & -> & -> & -> & -> & -> & -> & ->).
  exec. unfold with_dirty, with_cursor_x, with_content; cbn.
  by rewrite slice_to_in, slice_from_in by lia.
Qed.

Lemma backspace_char_exec (w : World) (bs : Z) :
  bs = KEY_BACKSPACE \/ bs = 127 ->
  inv (ted w) ->
  0 < cursor_x (ted w) ->
  let s := ted w in
  handle_insert_mode bs w
  = (Ret tt,
     mkWorld
       (with_dirty true
          (with_cursor_x (cursor_x s - 1)
             (with_content
                (<[Z.to_nat (cursor_y s) :=
                     delete (Z.to_nat (cursor_x s) - 1)%nat (line_at s)]>
                   (content s)) s)))
       (pending w) (fs w)).
Proof.
  intros Hb Hi Hx. cbn zeta.
  assert (Hk : (bs =? 27) = false
               /\ (bs =? KEY_BACKSPACE) || (bs =? 127) = true).
  { unfold KEY_BACKSPACE. destruct Hb; subst; by vm_compute. }
  destruct Hk as [Hk1 Hk2].
  unfold handle_insert_mode. on_inv Hi. rewrite Hk1, Hk2.
  exec; try lia. unfold with_dirty, with_cursor_x, with_content; cbn.
  by rewrite slice_delete by lia.
Qed.

(** X4.  A printable key (32 to 126) in insert mode, on a buffer that
    satisfies the invariant, puts its character into the line at the
    cursor column, moves the cursor one column right and makes the
    buffer dirty; nothing else changes. *)
Theorem printable_key_inserts (w : World) (key : Z) :
  32 <= key <= 126 ->
  inv (ted w) ->
  let s := ted w in
  let x := Z.to_nat (cursor_x s) in
  handle_insert_mode key w
  = (Ret tt,
     mkWorld
       (with_dirty true
          (with_cursor_x (cursor_x s + 1)
             (with_content
                (<[Z.to_nat (cursor_y s) :=
                     take x (line_at s) ++ Py.chr key :: drop x (line_at s)]>
                   (content s)) s)))
       (pending w) (fs w)).
Proof. exact (insert_char_exec w key). Qed.

Lemma printable_key_inserts_witness :
  content (ted (handle_insert_mode (key_of "Z")
                  (mkWorld Sample2.draft [] Sample.fs_empty)).2)
  = [list_ascii_of_string "aZbc"; list_ascii_of_string "de"].
Proof.
  rewrite (printable_key_inserts
             (mkWorld Sample2.draft [] Sample.fs_empty) (key_of "Z")).
  - reflexivity.
  - by vm_compute.
  - by vm_compute.
Defined.

(** X5.  The keys [o] and [O] in normal mode, on a buffer that satisfies
    the invariant: [o] puts an empty line after the cursor row and moves
    the cursor to it, [O] puts an empty line at the cursor row and
    leaves the cursor row as it is; both set the column to 0, enter
    insert mode and make the buffer dirty. *)
Theorem open_line_keys (w : World) :
  inv (ted w) ->
  let s := ted w in
  let y := Z.to_nat (cursor_y s) in
  handle_normal_mode (key_of "o") w
  = (Ret tt,
     mkWorld
       (with_dirty true
          (with_mode insert
             (with_cursor_x 0
                (with_cursor_y (cursor_y s + 1)
                   (with_content
                      (take (S y) (content s) ++ [] :: drop (S y) (content s))
                      s)))))
       (pending w) (fs w))
  /\ handle_normal_mode (key_of "O") w
     = (Ret tt,
        mkWorld
          (with_dirty true
             (with_mode insert
                (with_cursor_x 0
                   (with_content
                      (take y (content s) ++ [] :: drop y (content s)) s))))
          (pending w) (fs w)).
Proof.
  intros Hi. cbn zeta.
  split; unfold handle_normal_mode; on_inv Hi; key_tests; exec;
    unfold with_dirty, with_mode, with_cursor_x, with_cursor_y, with_content;
    cbn; rewrite insert_at_in by lia; [|reflexivity].
  by replace (Z.to_nat (y + 1)) with (S (Z.to_nat y)) by lia.
Qed.

Lemma open_line_keys_witness :
  content (ted (handle_normal_mode (key_of "o")
                  (mkWorld Sample2.draft [] Sample.fs_empty)).2)
  = [list_ascii_of_string "abc"; []; list_ascii_of_string "de"]
  /\ content (ted (handle_normal_mode (key_of "O")
                     (mkWorld Sample2.draft [] Sample.fs_empty)).2)
     = [[]; list_ascii_of_string "abc"; list_ascii_of_string "de"].
Proof.
  destruct (open_line_keys (mkWorld Sample2.draft [] Sample.fs_empty))
    as [Ho HO]; [by vm_compute|].
  rewrite Ho, HO. split; reflexivity.
Defined.

(** X6.  Typing a printable character in insert mode and pressing
    backspace right after gives back the lines and the cursor of before,
    on a buffer that satisfies the invariant. *)
Theorem insert_then_backspace (w : World) (key bs : Z) :
  32 <= key <= 126 ->
  bs = KEY_BACKSPACE \/ bs = 127 ->
  inv (ted w) ->
  exists w1,
    handle_insert_mode key w = (Ret tt, w1)
    /\ exists w2,
      handle_insert_mode bs w1 = (Ret tt, w2)
      /\ content (ted w2) = content (ted w)
      /\ cursor_y (ted w2) = cursor_y (ted w)
      /\ cursor_x (ted w2) = cursor_x (ted w).
Proof.
  intros Hk Hb Hi.
  pose proof (insert_char_exec w key Hk Hi) as E1. cbn zeta in E1.
  eexists. split; [exact E1|].
  match type of E1 with _ = (_, ?w1) => set (w1' := w1) in * end.
  assert (Hi1 : inv (ted w1')).
  { pose proof (handle_insert_mode_inv key w (proj1 Hi)) as Hinv.
    by rewrite E1 in Hinv. }
  assert (Hx1 : 0 < cursor_x (ted w1')) by (cbn; destruct Hi; lia).
  pose proof (backspace_char_exec w1' bs Hb Hi1 Hx1) as E2. cbn zeta in E2.
  eexists. split; [exact E2|].
  destruct w as [[fn c md y x msg q d] ks f].
  destruct Hi as (H1 & H2 & H3); unfold line_at in *; cbn in *.
  split; [|split; [done | lia]].
  rewrite list_lookup_total_insert_eq by (unfold Py.len in *; lia).
  rewrite list_insert_insert_eq.
  replace (Z.to_nat (x + 1) - 1)%nat with (Z.to_nat x) by lia.
  assert (Hlen : length (take (Z.to_nat x) (c !!! Z.to_nat y)) = Z.to_nat x).
  { rewrite length_take. unfold Py.len in *. lia. }
  rewrite <- Hlen at 1. rewrite delete_middle, take_drop.
  apply list_insert_id. apply list_lookup_lookup_total_lt.
  unfold Py.len in *. lia.
Qed.

Lemma insert_then_backspace_witness :
  exists w1 w2,
    handle_insert_mode (key_of "Z")
      (mkWorld Sample2.draft [] Sample.fs_empty) = (Ret tt, w1)
    /\ handle_insert_mode 127 w1 = (Ret tt, w2)
    /\ content (ted w2) = content Sample2.draft.
Proof.
  destruct (insert_then_backspace
              (mkWorld Sample2.draft [] Sample.fs_empty) (key_of "Z") 127)
    as (w1 & E1 & w2 & E2 & Hc & _); [by vm_compute | by right | by vm_compute |].
  exists w1, w2. split; [exact E1|]. split; [exact E2 | exact Hc].
Defined.

(** Decide the comparisons between closed key codes. *)
Ltac closed_tests :=
  repeat match goal with
         | |- context [?a =? ?b] =>
             let v := eval vm_compute in (a =? b) in
             match v with
             | true => change (a =? b) with true
             | false => change (a =? b) with false
             end
         | |- context [?a <=? ?b] =>
             let v := eval vm_compute in (a <=? b) in
             match v with
             | true => change (a <=? b) with true
             | false => change (a <=? b) with false
             end
         end;
  cbn [orb andb].

Ltac run_key Hi :=
  unfold handle_normal_mode, handle_insert_mode;
  closed_tests; on_inv Hi; exec;
  unfold with_dirty, with_mode, with_cursor_x, with_cursor_y, with_content;
  cbn; try reflexivity.

(** X7.  Vertical motion, on a buffer that satisfies the invariant: [j]
    and Down go one row down but not beyond the last row, [k] and Up one
    row up but not above row 0, [G] to the last row; each reduces the
    column to the length of the new line when it is beyond it, and
    changes nothing but the cursor.  The arrows do the same in insert
    mode. *)
Theorem vertical_motion (w : World) :
  inv (ted w) ->
  let s := ted w in
  let last := Py.len (content s) - 1 in
  let go (y' : Z) :=
    (Ret tt,
     mkWorld
       (with_cursor_x
          (Z.min (cursor_x s) (Py.len (content s !!! Z.to_nat y')))
          (with_cursor_y y' s))
       (pending w) (fs w)) in
  handle_normal_mode (key_of "j") w = go (Z.min last (cursor_y s + 1))
  /\ handle_normal_mode KEY_DOWN w = go (Z.min last (cursor_y s + 1))
  /\ handle_insert_mode KEY_DOWN w = go (Z.min last (cursor_y s + 1))
  /\ handle_normal_mode (key_of "k") w = go (Z.max 0 (cursor_y s - 1))
  /\ handle_normal_mode KEY_UP w = go (Z.max 0 (cursor_y s - 1))
  /\ handle_insert_mode KEY_UP w = go (Z.max 0 (cursor_y s - 1))
  /\ handle_normal_mode (key_of "G") w = go last.
Proof.
  intros Hi. cbn zeta. repeat split; run_key Hi.
Qed.

Lemma vertical_motion_witness :
  handle_normal_mode (key_of "j")
    (mkWorld Sample.unsaved [] Sample.fs_ro)
  = (Ret tt, mkWorld Sample.unsaved [] Sample.fs_ro)
  /\ cursor_y (ted (handle_normal_mode (key_of "k")
                      (mkWorld Sample.unsaved [] Sample.fs_ro)).2) = 0.
Proof.
  destruct (vertical_motion (mkWorld Sample.unsaved [] Sample.fs_ro))
    as (Hj & _ & _ & Hk & _); [by vm_compute|].
  rewrite Hj, Hk. split; reflexivity.
Defined.

(** X8.  Horizontal motion, on a buffer that satisfies the invariant:
    [h] and Left go one column left but not below 0, [l] and Right one
    column right but not beyond the end of the line, [0] to column 0,
    [$] to the end of the line; nothing but the column changes.  The
    arrows do the same in insert mode. *)
Theorem horizontal_motion (w : World) :
  inv (ted w) ->
  let s := ted w in
  let go (x' : Z) :=
    (Ret tt, mkWorld (with_cursor_x x' s) (pending w) (fs w)) in
  let right := Z.min (Py.len (line_at s)) (cursor_x s + 1) in
  handle_normal_mode (key_of "h") w = go (Z.max 0 (cursor_x s - 1))
  /\ handle_normal_mode KEY_LEFT w = go (Z.max 0 (cursor_x s - 1))
  /\ handle_insert_mode KEY_LEFT w = go (Z.max 0 (cursor_x s - 1))
  /\ handle_normal_mode (key_of "l") w = go right
  /\ handle_normal_mode KEY_RIGHT w = go right
  /\ handle_insert_mode KEY_RIGHT w = go right
  /\ handle_normal_mode (key_of "0") w = go 0
  /\ handle_normal_mode (key_of "$") w = go (Py.len (line_at s)).
Proof.
  intros Hi. cbn zeta. repeat split; run_key Hi.
Qed.

Lemma horizontal_motion_witness :
  cursor_x (ted (handle_normal_mode (key_of "$")
                   (mkWorld Sample2.draft [] Sample.fs_empty)).2) = 3
  /\ cursor_x (ted (handle_normal_mode (key_of "h")
                      (mkWorld Sample2.draft [] Sample.fs_empty)).2) = 0.
Proof.
  destruct (horizontal_motion (mkWorld Sample2.draft [] Sample.fs_empty))
    as (Hh & _ & _ & _ & _ & _ & _ & Hd); [by vm_compute|].
  rewrite Hh, Hd. split; reflexivity.
Defined.

(** X9.  Changes of mode, on a buffer that satisfies the invariant: [i]
    enters insert mode and changes nothing else; [a] enters insert mode
    with the cursor one column to the right, but not beyond the end of
    the line; Escape in insert mode returns to normal mode and changes
    nothing else; Escape in normal mode changes nothing at all. *)
Theorem mode_keys (w : World) :
  inv (ted w) ->
  let s := ted w in
  handle_normal_mode (key_of "i") w
  = (Ret tt, mkWorld (with_mode insert s) (pending w) (fs w))
  /\ handle_normal_mode (key_of "a") w
     = (Ret tt,
        mkWorld
          (with_mode insert
             (with_cursor_x (Z.min (Py.len (line_at s)) (cursor_x s + 1)) s))
          (pending w) (fs w))
  /\ handle_insert_mode 27 w
     = (Ret tt, mkWorld (with_mode normal s) (pending w) (fs w))
  /\ handle_normal_mode 27 w = (Ret tt, w).
Proof.
  intros Hi. cbn zeta. repeat split; run_key Hi.
Qed.

Lemma mode_keys_witness :
  mode (ted (handle_normal_mode (key_of "a")
               (mkWorld Sample2.draft [] Sample.fs_empty)).2) = insert
  /\ cursor_x (ted (handle_normal_mode (key_of "a")
                      (mkWorld Sample2.draft [] Sample.fs_empty)).2) = 2.
Proof.
  destruct (mode_keys (mkWorld Sample2.draft [] Sample.fs_empty))
    as (_ & Ha & _); [by vm_compute|].
  rewrite Ha. split; reflexivity.
Defined.

(** X10.  Keys without a meaning are ignored, on a buffer that satisfies
    the invariant: in normal mode a key that is none of the command
    keys, and in insert mode a key that is neither a control key, an
    arrow nor a printable character, leaves the whole state as it is. *)
Theorem other_keys_are_ignored (w : World) (key : Z) :
  inv (ted w) ->
  (Forall (fun k => key <> k)
          [key_of "i"; key_of "a"; key_of "h"; key_of "j"; key_of "k";
           key_of "l"; key_of ":"; key_of "x"; key_of "o"; key_of "O";
           key_of "$"; key_of "0"; key_of "G"; key_of "g";
           KEY_LEFT; KEY_RIGHT; KEY_UP; KEY_DOWN] ->
   handle_normal_mode key w = (Ret tt, w))
  /\ (Forall (fun k => key <> k)
             [27; 127; 10; KEY_BACKSPACE; KEY_ENTER;
              KEY_LEFT; KEY_RIGHT; KEY_UP; KEY_DOWN] ->
      ~ 32 <= key <= 126 ->
      handle_insert_mode key w = (Ret tt, w)).
Proof.
  intros Hi. split.
  - intros Hk. rewrite !Forall_cons in Hk.
    repeat match type of Hk with
           | _ /\ _ => let H := fresh "Hne" in destruct Hk as [H Hk];
                       apply Z.eqb_neq in H
           end.
    unfold handle_normal_mode. on_inv Hi.
    repeat match goal with H : (key =? _) = false |- _ =>
             rewrite H; clear H end.
    cbn [orb]. by repeat (destruct (key =? _)).
  - intros Hk Hp. rewrite !Forall_cons in Hk.
    repeat match type of Hk with
           | _ /\ _ => let H := fresh "Hne" in destruct Hk as [H Hk];
                       apply Z.eqb_neq in H
           end.
    assert (Hnp : (32 <=? key) && (key <=? 126) = false).
    { apply andb_false_iff.
      destruct (Z.leb_spec 32 key); [right|by left].
      apply Z.leb_gt. lia. }
    unfold handle_insert_mode. on_inv Hi.
    repeat match goal with H : (key =? _) = false |- _ =>
             rewrite H; clear H end.
    cbn [orb]. by rewrite Hnp.
Qed.

Lemma other_keys_are_ignored_witness :
  handle_normal_mode (key_of "z") (mkWorld Sample2.draft [] Sample.fs_empty)
  = (Ret tt, mkWorld Sample2.draft [] Sample.fs_empty)
  /\ handle_insert_mode 9 (mkWorld Sample2.draft [] Sample.fs_empty)
     = (Ret tt, mkWorld Sample2.draft [] Sample.fs_empty).
Proof.
  destruct (other_keys_are_ignored
              (mkWorld Sample2.draft [] Sample.fs_empty) (key_of "z"))
    as [Hn _]; [by vm_compute|].
  destruct (other_keys_are_ignored
              (mkWorld Sample2.draft [] Sample.fs_empty) 9)
    as [_ Hins]; [by vm_compute|].
  split.
  - apply Hn. repeat constructor; by vm_compute.
  - apply Hins; [repeat constructor; by vm_compute | lia].
Defined.
End Editing.

(** * The command line, key by key *)
Module CommandLine.
Import Ted Curses TedFacts Keys.

#[local] Arguments Py.slice_to : simpl never.
#[local] Arguments Py.slice_from : simpl never.
#[local] Arguments Py.len : simpl never.
#[local] Arguments Py.strip : simpl never.
#[local] Arguments Py.join : simpl never.

Lemma chr_ord c : Py.chr (Py.ord c) = c.
Proof.
  unfold Py.chr, Py.ord. rewrite N2Z.id. apply ascii_N_embedding.
Qed.

Lemma printable_key_tests k :
  32 <= k <= 126 ->
  (k =? KEY_ENTER) || (k =? 10) = false
  /\ (k =? KEY_BACKSPACE) || (k =? 127) = false
  /\ (k =? 27) = false
  /\ (32 <=? k) && (k <=? 126) = true.
Proof.
  intros Hk. unfold KEY_ENTER, KEY_BACKSPACE.
  rewrite !orb_false_iff, andb_true_iff. repeat split; lia.
Qed.

(** Typing printable characters extends the command being read. *)
Lemma get_command_loop_typing (text : str) (rest : list Z) s f :
  printable text ->
  forall cmd,
    get_command_loop (keys_of text ++ rest) cmd
                     (mkWorld s (keys_of text ++ rest) f)
    = get_command_loop rest (cmd ++ text) (mkWorld s rest f).
Proof.
  induction 1 as [|c text Hc _ IH]; intros cmd.
  - by rewrite app_nil_r.
  - cbn [keys_of fmap list_fmap app get_command_loop ted fs].
    destruct (printable_key_tests _ Hc) as (-> & -> & -> & ->).
    rewrite chr_ord. fold (keys_of text).
    rewrite IH. by rewrite <- (assoc_L (++)).
Qed.

Lemma get_command_enter (cmd : str) (rest : list Z) s f (enter : Z) :
  enter = KEY_ENTER \/ enter = 10 ->
  get_command_loop (enter :: rest) cmd (mkWorld s (enter :: rest) f)
  = process_command cmd (mkWorld s rest f).
Proof.
  intros He. cbn [get_command_loop ted fs].
  replace ((enter =? KEY_ENTER) || (enter =? 10)) with true; [done|].
  unfold KEY_ENTER. destruct He; subst; by vm_compute.
Qed.

Lemma get_command_typed (text : str) (rest : list Z) s f :
  printable text ->
  get_command (mkWorld s (keys_of text ++ 10 :: rest) f)
  = process_command text (mkWorld s rest f).
Proof.
  intros Ht. unfold get_command. cbn [pending].
  rewrite get_command_loop_typing by done.
  rewrite get_command_enter by (by right). reflexivity.
Qed.









Lemma save_file_same_view w : same_view (ted w) (ted (save_file w).2).
Proof.
  unfold save_file. destruct (OS.write _ _ _); by unfold same_view.
Qed.

Lemma process_command_same_view cmd w :
  same_view (ted w) (ted (process_command cmd w).2).
Proof.
  destruct w as [[fn c md y x msg q d] ks f].
  unfold process_command, get_command_input, get_filename_for_save.
  repeat first [ branch | progress munfold ];
    try (by unfold same_view).
  all: match goal with
       | |- context [save_file ?w] =>
           pose proof (save_file_same_view w) as Hs;
           destruct (save_file w) as [[] ?]
       end; cbn in *; unfold same_view in *; cbn in *; done.
Qed.

Lemma get_command_loop_same_view ks cmd w :
  same_view (ted w) (ted (get_command_loop ks cmd w).2).
Proof.
  revert cmd w. induction ks as [|key ks IH]; intros cmd w; cbn.
  - by unfold same_view.
  - repeat branch; cbn.
    + apply (process_command_same_view cmd (mkWorld (ted w) ks (fs w))).
    + apply (IH _ (mkWorld (ted w) ks (fs w))).
    + by unfold same_view.
    + apply (IH _ (mkWorld (ted w) ks (fs w))).
    + apply (IH _ (mkWorld (ted w) ks (fs w))).
Qed.

(** X14.  The command line never edits: whatever keys are pending and
    whatever command they spell, after [get_command] (and after any
    [process_command]) the lines, the cursor and the mode are the ones
    from before. *)
Theorem command_line_never_edits (w : World) (cmd : str) :
  same_view (ted w) (ted (get_command w).2)
  /\ same_view (ted w) (ted (process_command cmd w).2).
Proof.
  split.
  - apply get_command_loop_same_view.
  - apply process_command_same_view.
Qed.

Lemma process_q w :
  process_command "q" w
  = (Ret tt,
     mkWorld
       (if dirty (ted w)
        then with_message "No write since last change (add ! to override)"
                          (ted w)
        else with_quit true (ted w))
       (pending w) (fs w)).
Proof.
  unfold process_command. rewrite bool_decide_eq_true_2 by done.
  unfold mbind, M_bind, get, set. cbn. by destruct (dirty (ted w)).
Qed.

Lemma process_q_bang w :
  process_command "q!" w
  = (Ret tt, mkWorld (with_quit true (ted w)) (pending w) (fs w)).
Proof.
  unfold process_command.
  rewrite bool_decide_eq_false_2 by (by vm_compute).
  by rewrite bool_decide_eq_true_2 by done.
Qed.

Lemma colon_runs_command (text : str) (rest : list Z) s f :
  1 <= Py.len (content s) ->
  printable text ->
  handle_normal_mode (key_of ":") (mkWorld s (keys_of text ++ 10 :: rest) f)
  = process_command text (mkWorld (clamp s) rest f).
Proof.
  intros Hc Ht. unfold handle_normal_mode.
  rewrite after_ensure by exact Hc. cbn [ted pending fs].
  Editing.closed_tests.
  by apply get_command_typed.
Qed.

(** X15.  Quitting from normal mode, on a buffer with at least one
    line.  The keys [:q] and Enter set the quit flag when the buffer is
    not dirty; when it is dirty they leave the flag and set the message
    "No write since last change (add ! to override)".  The keys [:q!]
    and Enter set the quit flag whether the buffer is dirty or not.  In
    both cases nothing is written to the file system. *)
Theorem quit_keys (s : Ted) (f : FileSystem) (rest : list Z) :
  1 <= Py.len (content s) ->
  handle_normal_mode (key_of ":") (mkWorld s (keys_of "q" ++ 10 :: rest) f)
  = (Ret tt,
     mkWorld
       (if dirty s
        then with_message "No write since last change (add ! to override)"
                          (clamp s)
        else with_quit true (clamp s))
       rest f)
  /\ handle_normal_mode (key_of ":")
                        (mkWorld s (keys_of "q!" ++ 10 :: rest) f)
     = (Ret tt, mkWorld (with_quit true (clamp s)) rest f).
Proof.
  intros Hc. split.
  - rewrite colon_runs_command
      by (try done; repeat constructor; by vm_compute).
    by rewrite process_q.
  - rewrite colon_runs_command
      by (try done; repeat constructor; by vm_compute).
    by rewrite process_q_bang.
Qed.

Lemma quit_keys_witness :
  quit (ted (handle_normal_mode (key_of ":")
               (mkWorld Sample.unsaved (keys_of "q" ++ [10])
                        Sample.fs_ro)).2) = false
  /\ quit (ted (handle_normal_mode (key_of ":")
                  (mkWorld Sample.unsaved (keys_of "q!" ++ [10])
                           Sample.fs_ro)).2) = true.
Proof.
  destruct (quit_keys Sample.unsaved Sample.fs_ro [])
    as [Hq Hb]; [by vm_compute|].
  rewrite Hq, Hb. split; reflexivity.
Defined.

(** X16.  A command that is none of [q], [q!], [w], [wq] and does not
    start with [w ] only sets the message "Not an editor command: "
    followed by the command; the rest of the state, the pending keys and
    the file system stay as they are. *)
Theorem unknown_command (cmd : str) (w : World) :
  cmd <> list_ascii_of_string "q" ->
  cmd <> list_ascii_of_string "q!" ->
  cmd <> list_ascii_of_string "w" ->
  cmd <> list_ascii_of_string "wq" ->
  Py.startswith cmd "w " = false ->
  process_command cmd w
  = (Ret tt,
     mkWorld (with_message ("Not an editor command: " ++ cmd) (ted w))
             (pending w) (fs w)).
Proof.
  intros H1 H2 H3 H4 H5. unfold process_command.
  rewrite !bool_decide_eq_false_2 by done. by rewrite H5.
Qed.

Lemma unknown_command_witness :
  message (ted (process_command "x"
                  (mkWorld Sample2.draft [] Sample.fs_empty)).2)
  = "Not an editor command: x".
Proof.
  rewrite (unknown_command "x" (mkWorld Sample2.draft [] Sample.fs_empty));
    [reflexivity | discriminate | discriminate | discriminate
     | discriminate | reflexivity].
Defined.

(** X17.  A save that succeeds: for a state with a non-empty file name
    that can be written, [save_file] stores the lines joined by newlines
    under that name and leaves every other file alone, clears the dirty
    flag, reports the file name and the number of lines, and changes
    neither the lines nor the cursor nor the mode.  Saving a second time
    leaves the file system as the first save left it. *)
Theorem save_success (w : World) (p : str) :
  filename (ted w) = Some p ->
  p <> [] ->
  unwritable (fs w) !! p = None ->
  let w' := (save_file w).2 in
  files (fs w') !! p = Some (Py.join Py.LF (content (ted w)))
  /\ (forall p', p' <> p -> files (fs w') !! p' = files (fs w) !! p')
  /\ dirty (ted w') = false
  /\ message (ted w')
     = "'" ++ p ++ "' " ++ Py.str_of_nat (length (content (ted w)))
           ++ "L written"
  /\ same_view (ted w) (ted w')
  /\ fs (save_file w').2 = fs w'
  /\ dirty (ted (save_file w').2) = false.
Proof.
  intros Hf Hp Hu. cbn zeta.
  assert (E : save_file w
              = (Ret tt,
                 mkWorld
                   (with_dirty false
                      (with_message
                         ("'" ++ p ++ "' "
                              ++ Py.str_of_nat (length (content (ted w)))
                              ++ "L written") (ted w)))
                   (pending w)
                   (mkFS (<[p := Py.join Py.LF (content (ted w))]>
                            (files (fs w)))
                         (unwritable (fs w))))).
  { unfold save_file, OS.write. rewrite Hf.
    destruct p as [|c p]; [done|]. by rewrite Hu. }
  rewrite E. cbn [snd ted fs files].
  split; [by rewrite lookup_insert_eq|].
  split; [by intros p' Hne; rewrite lookup_insert_ne|].
  split; [done|]. split; [done|]. split; [by unfold same_view|].
  unfold save_file, OS.write. cbn [ted fs filename content with_dirty
    with_message files unwritable]. rewrite Hf.
  destruct p as [|c p]; [done|]. rewrite Hu. cbn [snd fs ted dirty].
  split; [|done]. by rewrite insert_insert_eq.
Qed.

Lemma save_success_witness :
  files (fs (save_file (mkWorld Sample.named [] Sample.fs_empty)).2)
    !! list_ascii_of_string "/tmp/a.txt"
  = Some (list_ascii_of_string "one" ++ Py.LF
            ++ list_ascii_of_string "two" ++ Py.LF)
  /\ dirty (ted (save_file (mkWorld Sample.named [] Sample.fs_empty)).2)
     = false.
Proof.
  destruct (save_success (mkWorld Sample.named [] Sample.fs_empty)
              "/tmp/a.txt" eq_refl ltac:(discriminate) eq_refl)
    as (Hfile & _ & Hd & _).
  split; [exact Hfile | exact Hd].
Defined.
End CommandLine.

(** * The main loop *)
Module MainLoop.
Import Ted Curses TedFacts Keys.






End MainLoop.
